(** * mavstatus: a MAVLink status monitor (main.py)

    A shallow embedding of the message handlers of [main.py] and the
    properties of its status log, severity table, system-status panel and
    polling callback.

    The program is a Tkinter script whose handlers mutate three module-level
    objects: the list [all_status_messages] and the two text widgets
    [status_text_widget] and [system_info_text_widget].  The embedding
    threads those objects through a state-and-exception monad; every Tk call
    is also recorded in a call log, so that the effects of one handler can be
    counted. *)

From Stdlib Require Import ZArith Lia Ascii.
From stdpp Require Import base numbers list strings pretty gmap.

Local Open Scope Z_scope.

(** ** Python values used by the handlers *)

Module Py.

(** The exceptions the handlers can raise. *)
Inductive exn : Type :=
  | ValueError       (* format code 'f' applied to a str *)
  | OverflowError    (* int too large to convert to float *)
  | AttributeError.  (* attribute missing on a message object *)

(** *** Strings *)

Fixpoint repeat_char (c : ascii) (n : nat) : string :=
  match n with
  | O => ""
  | S n' => String c (repeat_char c n')
  end.

(** [f"{s:<w}"]: left-aligned in a field of minimum width [w], filled with
    spaces on the right; a longer string is kept whole. *)
Definition ljust (w : nat) (s : string) : string :=
  s +:+ repeat_char " " (w - String.length s).

(** [f"{s:>w}"]: right-aligned, filled with spaces on the left. *)
Definition rjust (w : nat) (s : string) : string :=
  repeat_char " " (w - String.length s) +:+ s.

(** [str.zfill] on a string of digits. *)
Definition zfill (w : nat) (s : string) : string :=
  repeat_char "0" (w - String.length s) +:+ s.

(** [str(n)] for an int. *)
Definition str_int (n : Z) : string := pretty n.

(** *** Floats

    A finite binary64 number is kept as sign, integer mantissa and binary
    exponent: its value is [(-1)^fneg * fman * 2^fexp].  The mantissa is not
    required to be normalised.  Only the operations of the handlers are
    modelled: conversion from int, division and the ['.Nf'] format. *)

Record float : Type := Float { fneg : bool; fman : Z; fexp : Z }.

(** Nearest integer to [n / d] for [0 <= n] and [0 < d], ties to even. *)
Definition round_half_even (n d : Z) : Z :=
  let q := n / d in
  let r := n mod d in
  if 2 * r <? d then q
  else if d <? 2 * r then q + 1
  else if Z.even q then q else q + 1.

(** The rational [n / d] divided by [2^e], as a fraction. *)
Definition scale2 (n d e : Z) : Z * Z :=
  if 0 <=? e then (n, d * 2 ^ e) else (n * 2 ^ (- e), d).

(** Round the positive rational [n / d] to 53 significant bits, nearest
    even: the result [(m, e)] has [2^52 <= m < 2^53] and stands for
    [m * 2^e].  The exponent is unbounded here; the callers below stay
    inside the normal range of binary64. *)
Definition round53 (n d : Z) : Z * Z :=
  let k := Z.log2 n - Z.log2 d in
  let '(nk, dk) := scale2 n d k in
  let e := if dk <=? nk then k - 52 else k - 53 in
  let '(ne, de) := scale2 n d e in
  let m := round_half_even ne de in
  if m =? 2 ^ 53 then (2 ^ 52, e + 1) else (m, e).

(** [float(x)] for an int [x]: correctly rounded; ints that round to
    [2^1024] or more raise [OverflowError]. *)
Definition float_of_int (x : Z) : exn + float :=
  if x =? 0 then inr (Float false 0 0)
  else
    let '(m, e) := round53 (Z.abs x) 1 in
    if 971 <? e then inl OverflowError
    else inr (Float (x <? 0) m e).

(** [a / b] on floats with [b] nonzero, correctly rounded.  (The handlers
    divide by the literals [1000.0] and [10.0] only, and the quotient of a
    converted int by either lies in the normal range.) *)
Definition float_div (a b : float) : float :=
  if fman a =? 0 then Float (xorb (fneg a) (fneg b)) 0 0
  else
    let '(n, d) := scale2 (fman a) (fman b) (fexp b - fexp a) in
    let '(m, e) := round53 n d in
    Float (xorb (fneg a) (fneg b)) m e.

(** [x / y] for an int [x] and a float [y]: the int is converted first. *)
Definition int_truediv_float (x : Z) (y : float) : exn + float :=
  match float_of_int x with
  | inl e => inl e
  | inr fx => inr (float_div fx y)
  end.

(** [format(x, '.pf')]: the exact value of [x] rounded half-even to [p]
    decimals; the sign of a negative float is printed even when the digits
    are all zero. *)
Definition format_float_f (p : nat) (x : float) : string :=
  let '(n, d) := scale2 (fman x) 1 (- fexp x) in
  let k := round_half_even (n * 10 ^ Z.of_nat p) d in
  let ip := k / 10 ^ Z.of_nat p in
  let fp := k mod 10 ^ Z.of_nat p in
  (if fneg x then "-" else "") +:+ str_int ip +:+
  (match p with
   | O => ""
   | _ => "." +:+ zfill p (str_int fp)
   end).

(** A value that is a float on one branch and a str on the other, as
    [battery_voltage] and [cpu_usage] are. *)
Inductive value : Type :=
  | VFloat (x : float)
  | VStr (s : string).

(** [format(v, '.pf')]: a str does not accept the format code ['f']. *)
Definition format_f (p : nat) (v : value) : exn + string :=
  match v with
  | VFloat x => inr (format_float_f p x)
  | VStr _ => inl ValueError
  end.

(** The float literals of the program. *)
Definition f1000 : float := Float false 1000 0.
Definition f10 : float := Float false 10 0.

End Py.

(** ** The Tk text widget

    A [tk.Text] always ends in one newline that cannot be deleted; the
    content kept here is the text before that final newline.  Indices are
    resolved to character offsets: line [j] of the widget starts after the
    [j-1]-th newline of the content, and ["end"] is the position just after
    the final newline.  Tag ranges only affect colours and are not part of
    the content; [tag_add] is recorded in the call log alone. *)

Module Tk.

Definition newline : ascii := "010"%char.

(** The index expressions that occur in the program. *)
Inductive index : Type :=
  | Line1Char0                 (* '1.0' *)
  | Line1End                   (* '1.end' *)
  | END                        (* tk.END, 'end' *)
  | EndMinusLines (k : nat).   (* 'end-kl' *)

Fixpoint take (n : nat) (s : string) : string :=
  match n, s with
  | S n', String c s' => String c (take n' s')
  | _, _ => ""
  end.

Fixpoint drop (n : nat) (s : string) : string :=
  match n, s with
  | S n', String _ s' => drop n' s'
  | _, _ => s
  end.

Fixpoint count_newlines (s : string) : nat :=
  match s with
  | "" => O
  | String c s' =>
      if Ascii.eqb c newline then S (count_newlines s') else count_newlines s'
  end.

(** Offset of the end of the first line. *)
Fixpoint line_end (s : string) : nat :=
  match s with
  | "" => O
  | String c s' => if Ascii.eqb c newline then O else S (line_end s')
  end.

(** Offset of the start of the line that follows [j] newlines. *)
Fixpoint line_start (s : string) (j : nat) : nat :=
  match j, s with
  | O, _ => O
  | S _, "" => O
  | S j', String c s' =>
      S (line_start s' (if Ascii.eqb c newline then j' else j))
  end.

(** The widget has [count_newlines s + 1] lines; ["end"] is at the start of
    the line after the last one, and ["end-kl"] goes [k] lines back from
    there, stopping at the first line. *)
Definition offset (s : string) (i : index) : nat :=
  match i with
  | Line1Char0 => O
  | Line1End => line_end s
  | END => S (String.length s)
  | EndMinusLines O => S (String.length s)
  | EndMinusLines k => line_start s (S (count_newlines s) - k)
  end.

(** [w.insert(i, chars)]: an insertion at ["end"] goes before the final
    newline. *)
Definition insert (s : string) (i : index) (chars : string) : string :=
  let o := Nat.min (offset s i) (String.length s) in
  take o s +:+ chars +:+ drop o s.

(** [w.delete(i1, i2)]: removes the characters from [i1] up to [i2]; the
    final newline stays.  (The only deletion up to ["end"] in the program
    starts at ['1.0'].) *)
Definition delete (s : string) (i1 i2 : index) : string :=
  let o1 := offset s i1 in
  let o2 := Nat.min (offset s i2) (String.length s) in
  if (o1 <? o2)%nat then take o1 s +:+ drop o2 s else s.

(** The two text widgets of the window. *)
Inductive widget : Type :=
  | status_text
  | system_info_text.

(** One call into Tk, as logged. *)
Inductive call : Type :=
  | TextInsert (w : widget) (i : index) (chars : string)
  | TextDelete (w : widget) (i1 i2 : index)
  | TextTagAdd (w : widget) (tag : string) (i1 i2 : index)
  | After (ms : Z) (callback : string).

End Tk.

(** ** Messages and the clock *)

(** A decoded MAVLink message, with the fields the handlers read.  [OTHER]
    stands for every other message class of the dialect, [BAD_DATA]
    included; it carries its type name and its message id. *)
Inductive mavlink_message : Type :=
  | STATUSTEXT (severity : Z) (text : string)
  | HEARTBEAT (type autopilot base_mode custom_mode : Z)
  | SYS_STATUS (voltage_battery load : Z)
  | OTHER (name : string) (msgId : Z).

(** [msg.get_type()] *)
Definition get_type (msg : mavlink_message) : string :=
  match msg with
  | STATUSTEXT _ _ => "STATUSTEXT"
  | HEARTBEAT _ _ _ _ => "HEARTBEAT"
  | SYS_STATUS _ _ => "SYS_STATUS"
  | OTHER name _ => name
  end.

(** [msg.get_msgId()], with the ids of the MAVLink common dialect. *)
Definition get_msgId (msg : mavlink_message) : Z :=
  match msg with
  | STATUSTEXT _ _ => 253
  | HEARTBEAT _ _ _ _ => 0
  | SYS_STATUS _ _ => 1
  | OTHER _ id => id
  end.

(** [mavutil.mavlink.MAV_MODE_FLAG_SAFETY_ARMED] *)
Definition MAV_MODE_FLAG_SAFETY_ARMED : Z := 128.

(** What [datetime.now()] returns. *)
Record datetime : Type := Datetime {
  year : nat; month : nat; day : nat;
  hour : nat; minute : nat; second : nat
}.

Definition digit (n : nat) : ascii := ascii_of_nat (48 + n mod 10).

(** A zero-padded two-digit field ([%m], [%d], [%H], [%M], [%S]). *)
Definition dd (n : nat) : string :=
  String (digit (n / 10)) (String (digit n) "").

(** The four-digit year field [%Y] (years from 1000 to 9999, which covers
    every value of the wall clock). *)
Definition dddd (n : nat) : string :=
  String (digit (n / 1000)) (String (digit (n / 100)) (dd n)).

(** [d.strftime('%Y-%m-%d %H:%M:%S')] *)
Definition strftime (d : datetime) : string :=
  dddd (year d) +:+ "-" +:+ dd (month d) +:+ "-" +:+ dd (day d) +:+ " " +:+
  dd (hour d) +:+ ":" +:+ dd (minute d) +:+ ":" +:+ dd (second d).

(** ** Program state and the handler monad *)

(** The module-level objects the handlers mutate, the lines printed on
    standard output, and the log of Tk calls (oldest first). *)
Record state : Type := State {
  all_status_messages : list string;
  status_text_widget : string;
  system_info_text_widget : string;
  stdout : list string;
  tk_calls : list Tk.call
}.

(** The state when the window has just been built: an empty log and empty
    widgets. *)
Definition initial_state : state := State [] "" "" [] [].

Inductive result (A : Type) : Type :=
  | Ok (a : A)
  | Raise (e : Py.exn).
Arguments Ok {A} a.
Arguments Raise {A} e.

(** A computation returns normally or raises; the effects made before a
    [raise] stay in the state. *)
Definition M (A : Type) : Type := state → result A * state.

#[global] Instance M_ret : MRet M := λ A a s, (Ok a, s).
#[global] Instance M_bind : MBind M := λ A B f m s,
  match m s with
  | (Ok a, s') => f a s'
  | (Raise e, s') => (Raise e, s')
  end.

Definition raise {A : Type} (e : Py.exn) : M A := λ s, (Raise e, s).

(** Lift a pure operation that may raise. *)
Definition lift {A : Type} (r : Py.exn + A) : M A :=
  match r with
  | inl e => raise e
  | inr a => mret a
  end.

(** The state a computation leaves behind, whether it returned or raised. *)
Definition exec {A : Type} (m : M A) (s : state) : state := snd (m s).

(** Whether a computation returns normally. *)
Definition returns {A : Type} (m : M A) (s : state) : Prop :=
  ∃ a, fst (m s) = Ok a.

(** *** Primitive effects *)

Definition log_call (c : Tk.call) : M unit := λ s,
  (Ok (), State (all_status_messages s) (status_text_widget s)
             (system_info_text_widget s) (stdout s) (tk_calls s ++ [c])).

Definition widget_text (w : Tk.widget) (s : state) : string :=
  match w with
  | Tk.status_text => status_text_widget s
  | Tk.system_info_text => system_info_text_widget s
  end.

Definition set_widget_text (w : Tk.widget) (t : string) : M unit := λ s,
  (Ok (), match w with
          | Tk.status_text =>
              State (all_status_messages s) t (system_info_text_widget s)
                    (stdout s) (tk_calls s)
          | Tk.system_info_text =>
              State (all_status_messages s) (status_text_widget s) t
                    (stdout s) (tk_calls s)
          end).

(** [w.insert(i, chars)] *)
Definition text_insert (w : Tk.widget) (i : Tk.index) (chars : string)
  : M unit := λ s,
  (set_widget_text w (Tk.insert (widget_text w s) i chars) ;;
   log_call (Tk.TextInsert w i chars)) s.

(** [w.delete(i1, i2)] *)
Definition text_delete (w : Tk.widget) (i1 i2 : Tk.index) : M unit := λ s,
  (set_widget_text w (Tk.delete (widget_text w s) i1 i2) ;;
   log_call (Tk.TextDelete w i1 i2)) s.

(** [w.tag_add(tag, i1, i2)] *)
Definition tag_add (w : Tk.widget) (tag : string) (i1 i2 : Tk.index)
  : M unit :=
  log_call (Tk.TextTagAdd w tag i1 i2).

(** [root.after(ms, callback)] *)
Definition root_after (ms : Z) (callback : string) : M unit :=
  log_call (Tk.After ms callback).

(** [print(line)] *)
Definition print (line : string) : M unit := λ s,
  (Ok (), State (all_status_messages s) (status_text_widget s)
             (system_info_text_widget s) (stdout s ++ [line]) (tk_calls s)).

Definition get_all_status_messages : M (list string) := λ s,
  (Ok (all_status_messages s), s).

Definition set_all_status_messages (l : list string) : M unit := λ s,
  (Ok (), State l (status_text_widget s) (system_info_text_widget s)
             (stdout s) (tk_calls s)).

(** [all_status_messages.insert(0, x)] *)
Definition all_status_messages_insert0 (x : string) : M unit :=
  l ← get_all_status_messages; set_all_status_messages (x :: l).

(** [all_status_messages.pop()]: drops the last element (the popped value
    is discarded by the caller). *)
Definition all_status_messages_pop : M unit :=
  l ← get_all_status_messages; set_all_status_messages (removelast l).

(** [all_status_messages.clear()] *)
Definition all_status_messages_clear : M unit :=
  set_all_status_messages [].

(** *** Attribute access on a message *)

Definition msg_severity (msg : mavlink_message) : M Z :=
  match msg with STATUSTEXT sev _ => mret sev | _ => raise Py.AttributeError end.

Definition msg_text (msg : mavlink_message) : M string :=
  match msg with STATUSTEXT _ t => mret t | _ => raise Py.AttributeError end.

Definition msg_base_mode (msg : mavlink_message) : M Z :=
  match msg with HEARTBEAT _ _ b _ => mret b | _ => raise Py.AttributeError end.

Definition msg_custom_mode (msg : mavlink_message) : M Z :=
  match msg with HEARTBEAT _ _ _ c => mret c | _ => raise Py.AttributeError end.

Definition msg_voltage_battery (msg : mavlink_message) : M Z :=
  match msg with SYS_STATUS v _ => mret v | _ => raise Py.AttributeError end.

Definition msg_load (msg : mavlink_message) : M Z :=
  match msg with SYS_STATUS _ l => mret l | _ => raise Py.AttributeError end.

(** ** The program *)

(** [severity_levels]: severity code to (description, colour). *)
Definition severity_levels : gmap Z (string * string) :=
  <[0 := ("EMERGENCY", "red")]> (
  <[1 := ("ALERT", "orange red")]> (
  <[2 := ("CRITICAL", "dark orange")]> (
  <[3 := ("ERROR", "red")]> (
  <[4 := ("WARNING", "orange")]> (
  <[5 := ("NOTICE", "green")]> (
  <[6 := ("INFO", "blue")]> (
  <[7 := ("DEBUG", "gray")]> ∅))))))).

(** [severity_levels.get(code, ('UNKNOWN', 'black'))] *)
Definition severity_levels_get (code : Z) : string * string :=
  default ("UNKNOWN", "black") (severity_levels !! code).

Definition max_messages : nat := 100.

(** The line terminator ['\n']. *)
Definition nl : string := String Tk.newline "".

(** The display line of a status text: [f"{timestamp:<20}
    [{severity_description:<12}] {message_text:<60}"]. *)
Definition full_message_of (timestamp severity_description message_text : string)
  : string :=
  Py.ljust 20 timestamp +:+ " [" +:+ Py.ljust 12 severity_description +:+
  "] " +:+ Py.ljust 60 message_text.

(** [handle_statustext(msg)], with the instant read from the clock. *)
Definition handle_statustext (now : datetime) (msg : mavlink_message)
  : M unit :=
  let timestamp := strftime now in
  sev ← msg_severity msg;
  let '(severity_description, color) := severity_levels_get sev in
  message_text ← msg_text msg;
  let severity_tag := "severity_" +:+ Py.str_int sev in
  let full_message :=
    full_message_of timestamp severity_description message_text in
  text_insert Tk.status_text Tk.Line1Char0 (full_message +:+ nl) ;;
  tag_add Tk.status_text severity_tag Tk.Line1Char0 Tk.Line1End ;;
  all_status_messages_insert0 full_message ;;
  l ← get_all_status_messages;
  if (max_messages <? length l)%nat then
    all_status_messages_pop ;;
    text_delete Tk.status_text (Tk.EndMinusLines 2) (Tk.EndMinusLines 1)
  else mret ().

Section Handlers.

(** [mavutil.mode_string_v10], a function of the library. *)
Variable mode_string_v10 : mavlink_message → string.

(** [handle_system_status(msg)] *)
Definition handle_system_status (msg : mavlink_message) : M unit :=
  if String.eqb (get_type msg) "HEARTBEAT" then
    base_mode ← msg_base_mode msg;
    let armed_status :=
      if Z.land base_mode MAV_MODE_FLAG_SAFETY_ARMED =? 0
      then "DISARMED" else "ARMED" in
    custom_mode ← msg_custom_mode msg;
    let mode_description := mode_string_v10 msg in
    text_delete Tk.system_info_text Tk.Line1Char0 Tk.END ;;
    text_insert Tk.system_info_text Tk.END
      ("Armed Status: " +:+ armed_status +:+ nl) ;;
    text_insert Tk.system_info_text Tk.END
      ("Flight Mode: " +:+ mode_description +:+ " (Custom Mode: " +:+
       Py.str_int custom_mode +:+ ")" +:+ nl)
  else if String.eqb (get_type msg) "SYS_STATUS" then
    voltage_battery ← msg_voltage_battery msg;
    battery_voltage ←
      (if voltage_battery =? -1 then mret (Py.VStr "N/A")
       else x ← lift (Py.int_truediv_float voltage_battery Py.f1000);
            mret (Py.VFloat x));
    raw_load ← msg_load msg;
    load ← lift (Py.int_truediv_float raw_load Py.f10);
    cpu_usage ←
      (if raw_load =? -1 then mret (Py.VStr "N/A")
       else x ← lift (Py.int_truediv_float raw_load Py.f10);
            mret (Py.VFloat x));
    s1 ← lift (Py.format_f 2 battery_voltage);
    text_insert Tk.system_info_text Tk.END
      ("Battery Voltage: " +:+ s1 +:+ "V" +:+ nl) ;;
    s2 ← lift (Py.format_f 1 (Py.VFloat load));
    text_insert Tk.system_info_text Tk.END
      ("System Load: " +:+ s2 +:+ "%" +:+ nl) ;;
    s3 ← lift (Py.format_f 1 cpu_usage);
    text_insert Tk.system_info_text Tk.END
      ("CPU Usage: " +:+ s3 +:+ "%" +:+ nl)
  else mret ().

(** [log_unknown_message(msg)] *)
Definition log_unknown_message (msg : mavlink_message) : M unit :=
  let msg_id := get_msgId msg in
  print ("Unknown message type received: ID " +:+ Py.str_int msg_id).

(** [detect_incoming_messages()]: [received] is what
    [mavlink_connection.recv_match(blocking=False)] returns on this call
    ([None] when no message is pending) and [now] the clock at that time. *)
Definition detect_incoming_messages
    (received : option mavlink_message) (now : datetime) : M unit :=
  match received with
  | Some msg =>
      let msg_type := get_type msg in
      if String.eqb msg_type "STATUSTEXT" then handle_statustext now msg
      else if String.eqb msg_type "HEARTBEAT" || String.eqb msg_type "SYS_STATUS"
      then handle_system_status msg
      else log_unknown_message msg
  | None => mret ()
  end ;;
  root_after 50 "detect_incoming_messages".

(** [clear_all_data()] *)
Definition clear_all_data : M unit :=
  text_delete Tk.status_text Tk.Line1Char0 Tk.END ;;
  text_delete Tk.system_info_text Tk.Line1Char0 Tk.END ;;
  all_status_messages_clear.

End Handlers.

(** Tk's main loop runs the polling callback once per period.  A callback
    that raises is reported by Tk and abandoned: it never reached its
    [root.after] line, so no further poll is scheduled.  [inputs] lists, for
    each poll, what the connection delivers and the clock. *)
Fixpoint mainloop (mode_string_v10 : mavlink_message → string)
    (inputs : list (option mavlink_message * datetime)) (s : state) : state :=
  match inputs with
  | [] => s
  | (received, now) :: rest =>
      match detect_incoming_messages mode_string_v10 received now s with
      | (Ok _, s') => mainloop mode_string_v10 rest s'
      | (Raise _, s') => s'
      end
  end.

(** ** Vocabulary of the statements

    Names for the lines, calls and inputs the properties below speak of. *)

(** The Tk calls of one [clear_all_data()]. *)
Definition clear_calls : list Tk.call :=
  [Tk.TextDelete Tk.status_text Tk.Line1Char0 Tk.END;
   Tk.TextDelete Tk.system_info_text Tk.Line1Char0 Tk.END].

(** The display line of one status text. *)
Definition status_line (now : datetime) (sev : Z) (text : string) : string :=
  full_message_of (strftime now) (fst (severity_levels_get sev)) text.

(** The Tk calls that put a new status line on top of the log view. *)
Definition status_insert_calls (now : datetime) (sev : Z) (text : string)
  : list Tk.call :=
  [Tk.TextInsert Tk.status_text Tk.Line1Char0 (status_line now sev text +:+ nl);
   Tk.TextTagAdd Tk.status_text ("severity_" +:+ Py.str_int sev)
     Tk.Line1Char0 Tk.Line1End].

(** The call that drops the last line of the log view. *)
Definition status_evict_call : Tk.call :=
  Tk.TextDelete Tk.status_text (Tk.EndMinusLines 2) (Tk.EndMinusLines 1).

(** The call that re-arms the poll. *)
Definition rearm_call : Tk.call := Tk.After 50 "detect_incoming_messages".

(** Polls that each deliver one status text. *)
Definition statustext_inputs (msgs : list (datetime * Z * string))
  : list (option mavlink_message * datetime) :=
  (λ '(now, sev, text), (Some (STATUSTEXT sev text), now)) <$> msgs.

(** Their display lines, oldest first. *)
Definition status_lines (msgs : list (datetime * Z * string)) : list string :=
  (λ '(now, sev, text), status_line now sev text) <$> msgs.

(** A hundred and one status texts, numbered in their text. *)
Definition sample_statustexts : list (datetime * Z * string) :=
  (λ i : nat, (Datetime 2024 1 2 3 4 (i mod 60), 6, pretty i)) <$> seq 1 101.

(** The two lines a HEARTBEAT writes. *)
Definition armed_line (base_mode : Z) : string :=
  "Armed Status: " +:+
  (if Z.land base_mode MAV_MODE_FLAG_SAFETY_ARMED =? 0
   then "DISARMED" else "ARMED") +:+ nl.

Definition mode_line (mode_description : string) (custom_mode : Z) : string :=
  "Flight Mode: " +:+ mode_description +:+ " (Custom Mode: " +:+
  Py.str_int custom_mode +:+ ")" +:+ nl.

(** The values of [battery_voltage] and [cpu_usage] for a SYS_STATUS. *)
Definition battery_voltage_of (voltage_battery : Z) : Py.exn + Py.value :=
  if voltage_battery =? -1 then inr (Py.VStr "N/A")
  else match Py.int_truediv_float voltage_battery Py.f1000 with
       | inl e => inl e
       | inr x => inr (Py.VFloat x)
       end.

Definition cpu_usage_of (raw_load : Z) : Py.exn + Py.value :=
  if raw_load =? -1 then inr (Py.VStr "N/A")
  else match Py.int_truediv_float raw_load Py.f10 with
       | inl e => inl e
       | inr x => inr (Py.VFloat x)
       end.

Definition battery_line (s1 : string) : string :=
  "Battery Voltage: " +:+ s1 +:+ "V" +:+ nl.
Definition load_line (s2 : string) : string :=
  "System Load: " +:+ s2 +:+ "%" +:+ nl.
Definition cpu_line (s3 : string) : string :=
  "CPU Usage: " +:+ s3 +:+ "%" +:+ nl.

(** The lines [handle_system_status] inserts for a SYS_STATUS, in order,
    and how it ends. *)
Definition sys_status_render (voltage_battery raw_load : Z)
  : list string * result unit :=
  match battery_voltage_of voltage_battery with
  | inl e => ([], Raise e)
  | inr battery_voltage =>
    match Py.int_truediv_float raw_load Py.f10 with
    | inl e => ([], Raise e)
    | inr load =>
      match cpu_usage_of raw_load with
      | inl e => ([], Raise e)
      | inr cpu_usage =>
        match Py.format_f 2 battery_voltage with
        | inl e => ([], Raise e)
        | inr s1 =>
          let shown :=
            [battery_line s1; load_line (Py.format_float_f 1 load)] in
          match Py.format_f 1 cpu_usage with
          | inl e => (shown, Raise e)
          | inr s3 => (shown ++ [cpu_line s3], Ok ())
          end
        end
      end
    end
  end.

(** The handler a poll hands a message to, by its type. *)
Definition routed (mode_string_v10 : mavlink_message → string)
    (now : datetime) (msg : mavlink_message) : M unit :=
  if (get_type msg =? "STATUSTEXT")%string then handle_statustext now msg
  else if (get_type msg =? "HEARTBEAT")%string
          || (get_type msg =? "SYS_STATUS")%string
  then handle_system_status mode_string_v10 msg
  else log_unknown_message msg.

(** A state whose log is exactly at capacity. *)
Definition full_log_state : state :=
  State (replicate 99 "newer" ++ ["oldest"]) "" "" [] [].

(** Sample inputs. *)
Definition sample_now : datetime := Datetime 2024 1 2 3 4 5.

Definition is_system_status (msg : mavlink_message) : bool :=
  match msg with
  | HEARTBEAT _ _ _ _ | SYS_STATUS _ _ => true
  | _ => false
  end.

(** A poll that delivers neither a HEARTBEAT nor a SYS_STATUS. *)
Definition no_system_status (input : option mavlink_message * datetime)
  : bool :=
  match fst input with
  | Some msg => negb (is_system_status msg)
  | None => true
  end.

Definition sample_heartbeat : mavlink_message := HEARTBEAT 2 3 209 4.

(** An int that fits an integer field of a MAVLink message (at most 64
    bits, signed or unsigned). *)
Definition wire_int (x : Z) : Prop := - 2 ^ 63 ≤ x < 2 ^ 64.

(** ** Start-up

    The module-level code that runs before the main loop: the colour tags of
    the log view and the wait for the first HEARTBEAT. *)

(** [severity_levels.items()], in the order of the dict literal. *)
Definition severity_levels_items : list (Z * (string * string)) :=
  [(0, ("EMERGENCY", "red")); (1, ("ALERT", "orange red"));
   (2, ("CRITICAL", "dark orange")); (3, ("ERROR", "red"));
   (4, ("WARNING", "orange")); (5, ("NOTICE", "green"));
   (6, ("INFO", "blue")); (7, ("DEBUG", "gray"))].

(** The options [tag_configure] sets: [foreground] and [font]. *)
Record tag_options : Type := TagOptions {
  foreground : string;
  font : string * Z * string
}.

(** [f"severity_{severity}"] *)
Definition severity_tag (severity : Z) : string :=
  "severity_" +:+ Py.str_int severity.

(** The loop [for severity, (description, color) in severity_levels.items():
    status_text_widget.tag_configure(severity_tag, foreground=color,
    font=("Helvetica", 16, "bold"))], as the table of configured tags it
    leaves in the widget. *)
Definition configure_severity_tags : gmap string tag_options :=
  foldl (λ tags '(severity, (description, color)),
           <[severity_tag severity :=
               TagOptions color ("Helvetica", 16, "bold")]> tags)
        ∅ severity_levels_items.

(** The loop of [wait_for_heartbeat()]: [received] lists what the successive
    calls [recv_match(type='HEARTBEAT', blocking=True)] return.  The result
    is [true] when the loop has reached its [break], and [false] when the
    calls listed are used up and the loop is still waiting. *)
Fixpoint wait_for_heartbeat_loop (received : list (option mavlink_message))
  : M bool :=
  match received with
  | [] => mret false
  | Some _ :: _ =>
      print "HEARTBEAT received!" ;;
      root_after 50 "detect_incoming_messages" ;;
      mret true
  | None :: rest => wait_for_heartbeat_loop rest
  end.

(** [wait_for_heartbeat()] *)
Definition wait_for_heartbeat (received : list (option mavlink_message))
  : M bool :=
  print "Waiting for HEARTBEAT..." ;;
  wait_for_heartbeat_loop received.

(** ** Vocabulary of the further properties *)

(** A string without a line terminator. *)
Fixpoint no_newline (s : string) : bool :=
  match s with
  | "" => true
  | String c s' => negb (Ascii.eqb c Tk.newline) && no_newline s'
  end.

(** The text that shows the entries of a log, one per line, first entry on
    top. *)
Definition view_of (log : list string) : string :=
  foldr (λ line rest, line +:+ nl +:+ rest) "" log.

(** A poll whose status text, if it delivers one, has no line terminator. *)
Definition one_line_input (input : option mavlink_message * datetime)
  : bool :=
  match fst input with
  | Some (STATUSTEXT _ text) => no_newline text
  | _ => true
  end.

(** The polls on which [detect_incoming_messages] returns normally: nothing
    pending, a STATUSTEXT, a HEARTBEAT, a SYS_STATUS whose lines all format,
    or a message of another type (named as such). *)
Definition poll_returns (input : option mavlink_message * datetime) : bool :=
  match fst input with
  | None => true
  | Some (STATUSTEXT _ _) => true
  | Some (HEARTBEAT _ _ _ _) => true
  | Some (SYS_STATUS voltage_battery raw_load) =>
      match snd (sys_status_render voltage_battery raw_load) with
      | Ok _ => true
      | Raise _ => false
      end
  | Some (OTHER name _) =>
      negb (name =? "STATUSTEXT")%string &&
      negb (name =? "HEARTBEAT")%string &&
      negb (name =? "SYS_STATUS")%string
  end.

(** The display line of the status text a poll delivers, if any. *)
Definition input_status_line (input : option mavlink_message * datetime)
  : option string :=
  match input with
  | (Some (STATUSTEXT sev text), now) => Some (status_line now sev text)
  | _ => None
  end.

(** The calls that schedule a poll, among the calls made into Tk. *)
Definition is_after (c : Tk.call) : bool :=
  match c with
  | Tk.After _ _ => true
  | _ => false
  end.

Definition count_after (calls : list Tk.call) : nat :=
  length (filter (λ c, is_after c = true) calls).

(** The digits [format(x, '.1f')] prints: the value of [x] in tenths, and
    [format(x, '.2f')]: in hundredths, rounded half-even. *)
Definition decimals_of (p : nat) (x : Py.float) : Z :=
  let '(n, d) := Py.scale2 (Py.fman x) 1 (- Py.fexp x) in
  Py.round_half_even (n * 10 ^ Z.of_nat p) d.

(** The three lines of a SYS_STATUS whose voltage shows as [k] hundredths of
    a volt and whose load is [raw_load] tenths of a percent. *)
Definition sys_status_lines (k raw_load : Z) : list string :=
  [battery_line (Py.str_int (k / 100) +:+ "." +:+
                 Py.zfill 2 (Py.str_int (k mod 100)));
   load_line (Py.str_int (raw_load / 10) +:+ "." +:+
              Py.str_int (raw_load mod 10));
   cpu_line (Py.str_int (raw_load / 10) +:+ "." +:+
             Py.str_int (raw_load mod 10))].

(** The log view shows exactly the log, and every entry is one line. *)
Definition in_sync (s : state) : Prop :=
  status_text_widget s = view_of (all_status_messages s) ∧
  Forall (λ line, no_newline line = true) (all_status_messages s).

(** Whether a call to [recv_match] returned a message. *)
Definition delivered (received : option mavlink_message) : bool :=
  match received with
  | Some _ => true
  | None => false
  end.

(** The lines a poll adds to the system-status panel when it delivers a
    SYS_STATUS, and whether it delivers a HEARTBEAT. *)
Definition input_panel_lines (input : option mavlink_message * datetime)
  : list string :=
  match fst input with
  | Some (SYS_STATUS voltage_battery raw_load) =>
      fst (sys_status_render voltage_battery raw_load)
  | _ => []
  end.

Definition no_heartbeat (input : option mavlink_message * datetime) : bool :=
  match fst input with
  | Some (HEARTBEAT _ _ _ _) => false
  | _ => true
  end.

(** Two states that show the same: equal logs and equal widget contents
    (standard output and the log of Tk calls may differ). *)
Definition same_display (s1 s2 : state) : Prop :=
  all_status_messages s1 = all_status_messages s2 ∧
  status_text_widget s1 = status_text_widget s2 ∧
  system_info_text_widget s1 = system_info_text_widget s2.

(** * Properties *)

(** ** Strings and widget operations *)

Lemma string_app_cons (c : ascii) (s t : string) :
  String c s +:+ t = String c (s +:+ t).
Proof. reflexivity. Qed.

Lemma string_app_length (s t : string) :
  String.length (s +:+ t) = (String.length s + String.length t)%nat.
Proof.
  induction s as [|c s IH]; [done|].
  rewrite string_app_cons. simpl. by rewrite IH.
Qed.

Lemma string_app_nil_r (s : string) : s +:+ "" = s.
Proof.
  induction s as [|c s IH]; [done|]. by rewrite string_app_cons, IH.
Qed.

Lemma string_app_assoc (s t u : string) : (s +:+ t) +:+ u = s +:+ t +:+ u.
Proof.
  induction s as [|c s IH]; [done|]. by rewrite !string_app_cons, IH.
Qed.

Lemma repeat_char_length (c : ascii) (n : nat) :
  String.length (Py.repeat_char c n) = n.
Proof. induction n as [|n IH]; simpl; [done | by rewrite IH]. Qed.

Lemma ljust_length (w : nat) (s : string) :
  String.length (Py.ljust w s) = Nat.max w (String.length s).
Proof.
  unfold Py.ljust. rewrite string_app_length, repeat_char_length. lia.
Qed.

Lemma take_all (n : nat) (s : string) :
  (String.length s ≤ n)%nat → Tk.take n s = s.
Proof.
  revert n. induction s as [|c s IH]; intros [|n] Hn; simpl in *;
    try done; try lia.
  f_equal. apply IH. lia.
Qed.

Lemma drop_all (n : nat) (s : string) :
  (String.length s ≤ n)%nat → Tk.drop n s = "".
Proof.
  revert n. induction s as [|c s IH]; intros [|n] Hn; simpl in *;
    try done; try lia.
  apply IH. lia.
Qed.

(** Inserting at ["end"] appends to the content. *)
Lemma insert_END (s chars : string) : Tk.insert s Tk.END chars = s +:+ chars.
Proof.
  unfold Tk.insert, Tk.offset.
  replace (Nat.min (S (String.length s)) (String.length s))
    with (String.length s) by lia.
  rewrite take_all, drop_all by lia. by rewrite string_app_nil_r.
Qed.

(** Inserting at ['1.0'] puts the text before the content. *)
Lemma insert_Line1Char0 (s chars : string) :
  Tk.insert s Tk.Line1Char0 chars = chars +:+ s.
Proof.
  unfold Tk.insert, Tk.offset. rewrite Nat.min_0_l.
  by destruct s.
Qed.

(** Deleting from ['1.0'] to ["end"] empties the widget. *)
Lemma delete_all (s : string) : Tk.delete s Tk.Line1Char0 Tk.END = "".
Proof.
  unfold Tk.delete, Tk.offset.
  replace (Nat.min (S (String.length s)) (String.length s))
    with (String.length s) by lia.
  destruct s as [|c s]; [done|].
  replace (0 <? String.length (String c s))%nat with true
    by (symmetry; apply Nat.ltb_lt; simpl; lia).
  rewrite drop_all by lia. done.
Qed.

Lemma strftime_length (now : datetime) : String.length (strftime now) = 19%nat.
Proof. reflexivity. Qed.

(** The timestamp field is the timestamp followed by one space. *)
Lemma ljust_strftime (now : datetime) :
  Py.ljust 20 (strftime now) = strftime now +:+ " ".
Proof. unfold Py.ljust. by rewrite strftime_length. Qed.

(** ** Running the primitives *)

Lemma bind_run {A B : Type} (m : M A) (f : A → M B) (s : state) :
  (m ≫= f) s =
  match m s with
  | (Ok a, s') => f a s'
  | (Raise e, s') => (Raise e, s')
  end.
Proof. reflexivity. Qed.

Lemma insert_system_info_run (chars : string) (s : state) :
  text_insert Tk.system_info_text Tk.END chars s =
  (Ok (), State (all_status_messages s) (status_text_widget s)
             (system_info_text_widget s +:+ chars) (stdout s)
             (tk_calls s ++ [Tk.TextInsert Tk.system_info_text Tk.END chars])).
Proof.
  unfold text_insert. rewrite bind_run. simpl. by rewrite insert_END.
Qed.

Lemma delete_all_run (w : Tk.widget) (s : state) :
  text_delete w Tk.Line1Char0 Tk.END s =
  (Ok (), match w with
          | Tk.status_text =>
              State (all_status_messages s) "" (system_info_text_widget s)
                (stdout s)
                (tk_calls s ++ [Tk.TextDelete w Tk.Line1Char0 Tk.END])
          | Tk.system_info_text =>
              State (all_status_messages s) (status_text_widget s) ""
                (stdout s)
                (tk_calls s ++ [Tk.TextDelete w Tk.Line1Char0 Tk.END])
          end).
Proof.
  unfold text_delete. rewrite bind_run.
  destruct w; simpl; by rewrite delete_all.
Qed.

Lemma clear_all_data_run (s : state) :
  clear_all_data s =
  (Ok (), State [] "" "" (stdout s) (tk_calls s ++ clear_calls)).
Proof.
  unfold clear_all_data. rewrite bind_run, delete_all_run.
  rewrite bind_run, delete_all_run. simpl. by rewrite <- app_assoc.
Qed.

Lemma concat_replicate_comm {A : Type} (n : nat) (l : list A) :
  concat (replicate n l) ++ l = l ++ concat (replicate n l).
Proof.
  induction n as [|n IH]; simpl.
  - by rewrite app_nil_r.
  - by rewrite <- app_assoc, IH.
Qed.

Lemma clear_all_data_iter (n : nat) (s : state) :
  Nat.iter (S n) (exec clear_all_data) s =
  State [] "" "" (stdout s)
    (tk_calls s ++ concat (replicate (S n) clear_calls)).
Proof.
  induction n as [|n IH].
  - simpl. unfold exec. by rewrite clear_all_data_run.
  - change (Nat.iter (S (S n)) (exec clear_all_data) s)
      with (exec clear_all_data (Nat.iter (S n) (exec clear_all_data) s)).
    rewrite IH. unfold exec. rewrite clear_all_data_run.
    cbn [snd stdout tk_calls]. f_equal.
    rewrite <- app_assoc. f_equal.
    by rewrite concat_replicate_comm.
Qed.

(** ** The severity table *)

(** C6: the lookup [severity_levels.get(code, ('UNKNOWN', 'black'))] is a
    total function of the code: each of the codes 0 to 7 gives its fixed
    (description, colour) pair, and every other code gives
    [('UNKNOWN', 'black')]. *)
Theorem severity_lookup_total :
  severity_levels_get 0 = ("EMERGENCY", "red") ∧
  severity_levels_get 1 = ("ALERT", "orange red") ∧
  severity_levels_get 2 = ("CRITICAL", "dark orange") ∧
  severity_levels_get 3 = ("ERROR", "red") ∧
  severity_levels_get 4 = ("WARNING", "orange") ∧
  severity_levels_get 5 = ("NOTICE", "green") ∧
  severity_levels_get 6 = ("INFO", "blue") ∧
  severity_levels_get 7 = ("DEBUG", "gray") ∧
  ∀ code : Z, code < 0 ∨ 7 < code →
    severity_levels_get code = ("UNKNOWN", "black").
Proof.
  repeat split; try reflexivity.
  intros code Hcode. unfold severity_levels_get, severity_levels.
  rewrite !lookup_insert_ne by lia. by rewrite lookup_empty.
Qed.

Lemma severity_lookup_total_witness :
  severity_levels_get 8 = ("UNKNOWN", "black") ∧
  severity_levels_get (-1) = ("UNKNOWN", "black") ∧
  severity_levels_get 255 = ("UNKNOWN", "black").
Proof.
  destruct severity_lookup_total as (_ & _ & _ & _ & _ & _ & _ & _ & H).
  repeat split; apply H; lia.
Defined.

(** ** Clearing *)

(** C8: after any number [n+1] of consecutive [clear_all_data()] calls the
    message list and both widgets are empty, standard output is untouched,
    and the calls made into Tk are exactly one delete-all per widget per
    call; a further call changes neither the list nor the widgets, and on a
    state that is already empty the call leaves it empty. *)
Theorem clear_all_data_idempotent (s : state) (n : nat) :
  let s' := Nat.iter (S n) (exec clear_all_data) s in
  returns clear_all_data s ∧
  all_status_messages s' = [] ∧
  status_text_widget s' = "" ∧
  system_info_text_widget s' = "" ∧
  stdout s' = stdout s ∧
  tk_calls s' = tk_calls s ++ concat (replicate (S n) clear_calls) ∧
  tk_calls (exec clear_all_data s) = tk_calls s ++ clear_calls ∧
  all_status_messages (exec clear_all_data s') = all_status_messages s' ∧
  status_text_widget (exec clear_all_data s') = status_text_widget s' ∧
  system_info_text_widget (exec clear_all_data s') =
    system_info_text_widget s'.
Proof.
  intros s'. subst s'. rewrite clear_all_data_iter. unfold exec, returns.
  rewrite !clear_all_data_run. simpl. repeat split; eauto.
Qed.

(** ** Running the handlers *)

Lemma insert_status_top_run (chars : string) (s : state) :
  text_insert Tk.status_text Tk.Line1Char0 chars s =
  (Ok (), State (all_status_messages s) (chars +:+ status_text_widget s)
             (system_info_text_widget s) (stdout s)
             (tk_calls s ++
              [Tk.TextInsert Tk.status_text Tk.Line1Char0 chars])).
Proof.
  unfold text_insert. rewrite bind_run. simpl. by rewrite insert_Line1Char0.
Qed.

Lemma delete_status_run (i1 i2 : Tk.index) (s : state) :
  text_delete Tk.status_text i1 i2 s =
  (Ok (), State (all_status_messages s)
             (Tk.delete (status_text_widget s) i1 i2)
             (system_info_text_widget s) (stdout s)
             (tk_calls s ++ [Tk.TextDelete Tk.status_text i1 i2])).
Proof. reflexivity. Qed.

Lemma tag_add_run (w : Tk.widget) (tag : string) (i1 i2 : Tk.index)
    (s : state) :
  tag_add w tag i1 i2 s =
  (Ok (), State (all_status_messages s) (status_text_widget s)
             (system_info_text_widget s) (stdout s)
             (tk_calls s ++ [Tk.TextTagAdd w tag i1 i2])).
Proof. reflexivity. Qed.

Lemma insert0_run (x : string) (s : state) :
  all_status_messages_insert0 x s =
  (Ok (), State (x :: all_status_messages s) (status_text_widget s)
             (system_info_text_widget s) (stdout s) (tk_calls s)).
Proof. reflexivity. Qed.

Lemma pop_run (s : state) :
  all_status_messages_pop s =
  (Ok (), State (removelast (all_status_messages s)) (status_text_widget s)
             (system_info_text_widget s) (stdout s) (tk_calls s)).
Proof. reflexivity. Qed.

Lemma get_all_status_messages_run (s : state) :
  get_all_status_messages s = (Ok (all_status_messages s), s).
Proof. reflexivity. Qed.

Lemma mret_run {A : Type} (a : A) (s : state) :
  (mret a : M A) s = (Ok a, s).
Proof. reflexivity. Qed.

(** Reduce the projections of an explicit state. *)
Ltac proj_state :=
  cbn [all_status_messages status_text_widget system_info_text_widget
       stdout tk_calls].

Lemma handle_statustext_run (now : datetime) (sev : Z) (text : string)
    (s : state) :
  handle_statustext now (STATUSTEXT sev text) s =
  (Ok (),
   let line := status_line now sev text in
   let shown := line +:+ nl +:+ status_text_widget s in
   if (max_messages <? S (length (all_status_messages s)))%nat then
     State (removelast (line :: all_status_messages s))
       (Tk.delete shown (Tk.EndMinusLines 2) (Tk.EndMinusLines 1))
       (system_info_text_widget s) (stdout s)
       (tk_calls s ++ status_insert_calls now sev text ++ [status_evict_call])
   else
     State (line :: all_status_messages s) shown
       (system_info_text_widget s) (stdout s)
       (tk_calls s ++ status_insert_calls now sev text)).
Proof.
  unfold handle_statustext, status_insert_calls, status_line.
  cbn [msg_severity msg_text]. rewrite bind_run, mret_run.
  destruct (severity_levels_get sev) as [description color].
  rewrite bind_run, mret_run. cbn [fst].
  set (line := full_message_of (strftime now) description text).
  rewrite bind_run, insert_status_top_run.
  rewrite bind_run, tag_add_run. proj_state.
  rewrite bind_run, insert0_run. proj_state.
  rewrite bind_run, get_all_status_messages_run. proj_state.
  change (length (line :: all_status_messages s))
    with (S (length (all_status_messages s))).
  rewrite string_app_assoc, <- app_assoc.
  destruct (max_messages <? S (length (all_status_messages s)))%nat.
  - rewrite bind_run, pop_run, delete_status_run. proj_state.
    by rewrite <- app_assoc.
  - by rewrite mret_run.
Qed.

Lemma log_unknown_message_run (msg : mavlink_message) (s : state) :
  log_unknown_message msg s =
  (Ok (), State (all_status_messages s) (status_text_widget s)
             (system_info_text_widget s)
             (stdout s ++ ["Unknown message type received: ID " +:+
                           Py.str_int (get_msgId msg)])
             (tk_calls s)).
Proof. reflexivity. Qed.

Lemma root_after_run (s : state) :
  root_after 50 "detect_incoming_messages" s =
  (Ok (), State (all_status_messages s) (status_text_widget s)
             (system_info_text_widget s) (stdout s)
             (tk_calls s ++ [rearm_call])).
Proof. reflexivity. Qed.

(** ** Polling with nothing pending *)

(** C9: a poll that finds no pending message returns normally and leaves
    the message list, both widgets and standard output as they were; its
    only call into Tk re-arms the poll. *)
Theorem detect_no_message_no_effect
    (mode_string_v10 : mavlink_message → string) (now : datetime) (s : state) :
  let s' := exec (detect_incoming_messages mode_string_v10 None now) s in
  returns (detect_incoming_messages mode_string_v10 None now) s ∧
  all_status_messages s' = all_status_messages s ∧
  status_text_widget s' = status_text_widget s ∧
  system_info_text_widget s' = system_info_text_widget s ∧
  stdout s' = stdout s ∧
  tk_calls s' = tk_calls s ++ [rearm_call].
Proof.
  unfold exec, returns, detect_incoming_messages.
  rewrite bind_run. cbn [mret M_ret]. rewrite root_after_run.
  simpl. repeat split; eauto.
Qed.

(** ** The status log *)

Lemma returns_statustext (now : datetime) (sev : Z) (text : string)
    (s : state) :
  returns (handle_statustext now (STATUSTEXT sev text)) s.
Proof. unfold returns. rewrite handle_statustext_run. eauto. Qed.

(** What one insertion does to the list. *)
Lemma statustext_list (now : datetime) (sev : Z) (text : string) (s : state) :
  all_status_messages (exec (handle_statustext now (STATUSTEXT sev text)) s) =
  if (max_messages <? S (length (all_status_messages s)))%nat
  then removelast (status_line now sev text :: all_status_messages s)
  else status_line now sev text :: all_status_messages s.
Proof.
  unfold exec. rewrite handle_statustext_run. cbn [snd].
  by destruct (max_messages <? S (length (all_status_messages s)))%nat.
Qed.

(** On a list within capacity, inserting keeps the first [max_messages]
    entries of the extended list. *)
Lemma statustext_list_take (now : datetime) (sev : Z) (text : string)
    (s : state) :
  (length (all_status_messages s) ≤ max_messages)%nat →
  all_status_messages (exec (handle_statustext now (STATUSTEXT sev text)) s) =
  take max_messages (status_line now sev text :: all_status_messages s).
Proof.
  intros Hlen. rewrite statustext_list.
  destruct (Nat.ltb_spec max_messages (S (length (all_status_messages s))))
    as [Hfull|Hroom].
  - rewrite removelast_firstn_len. f_equal. simpl. lia.
  - rewrite take_ge; [done|]. simpl. lia.
Qed.

Lemma take_app_take {A : Type} (n : nat) (l k : list A) :
  take n (l ++ take n k) = take n (l ++ k).
Proof.
  rewrite !take_app, take_take. do 2 f_equal. lia.
Qed.

Lemma detect_statustext_run (mode_string_v10 : mavlink_message → string)
    (now : datetime) (sev : Z) (text : string) (s : state) :
  detect_incoming_messages mode_string_v10 (Some (STATUSTEXT sev text)) now s =
  (Ok (),
   let s' := exec (handle_statustext now (STATUSTEXT sev text)) s in
   State (all_status_messages s') (status_text_widget s')
     (system_info_text_widget s') (stdout s') (tk_calls s' ++ [rearm_call])).
Proof.
  unfold detect_incoming_messages, exec. cbn [get_type].
  change ("STATUSTEXT" =? "STATUSTEXT")%string with true. cbv iota.
  rewrite bind_run.
  destruct (returns_statustext now sev text s) as [[] Hret].
  destruct (handle_statustext now (STATUSTEXT sev text) s) as [r s'].
  cbn [fst] in Hret. subst r. by rewrite root_after_run.
Qed.

Lemma mainloop_statustexts (mode_string_v10 : mavlink_message → string)
    (msgs : list (datetime * Z * string)) (s : state) :
  (length (all_status_messages s) ≤ max_messages)%nat →
  all_status_messages
    (mainloop mode_string_v10 (statustext_inputs msgs) s) =
  take max_messages (reverse (status_lines msgs) ++ all_status_messages s).
Proof.
  revert s. induction msgs as [|[[now sev] text] msgs IH]; intros s Hlen.
  - simpl. by rewrite take_ge.
  - unfold statustext_inputs, status_lines. rewrite !fmap_cons.
    fold (statustext_inputs msgs). fold (status_lines msgs).
    cbn [mainloop]. rewrite detect_statustext_run. cbv zeta.
    rewrite IH; proj_state.
    + rewrite statustext_list_take by done.
      rewrite take_app_take, reverse_cons, <- app_assoc. done.
    + rewrite statustext_list_take by done. rewrite length_take. lia.
Qed.

(** C2: delivering [N] status texts, one per poll, to the freshly started
    program leaves in [all_status_messages] the lines of the most recent
    [min N max_messages] of them, newest first, so its length is
    [min N max_messages]; with 101 messages the list holds the lines of
    messages 2 to 101 and the first one is gone. *)
Theorem status_log_capacity (mode_string_v10 : mavlink_message → string)
    (msgs : list (datetime * Z * string)) :
  let log :=
    all_status_messages
      (mainloop mode_string_v10 (statustext_inputs msgs) initial_state) in
  max_messages = 100%nat ∧
  log = take max_messages (reverse (status_lines msgs)) ∧
  log = reverse (status_lines (drop (length msgs - max_messages) msgs)) ∧
  length log = Nat.min (length msgs) max_messages ∧
  (length msgs = 101%nat →
   log = reverse (status_lines (drop 1 msgs)) ∧ length log = 100%nat).
Proof.
  intros log.
  assert (Hlog : log = take max_messages (reverse (status_lines msgs))).
  { subst log. rewrite mainloop_statustexts by (simpl; lia).
    by rewrite app_nil_r. }
  assert (Hrev : log =
    reverse (status_lines (drop (length msgs - max_messages) msgs))).
  { rewrite Hlog, take_reverse. unfold status_lines.
    by rewrite fmap_drop, length_fmap. }
  split; [done|]. split; [done|]. split; [done|]. split.
  - rewrite Hlog, length_take, length_reverse.
    unfold status_lines. rewrite length_fmap. lia.
  - intros H101. split.
    + rewrite Hrev, H101. done.
    + rewrite Hlog, length_take, length_reverse.
      unfold status_lines. rewrite length_fmap, H101. done.
Qed.

Lemma status_log_capacity_witness :
  length sample_statustexts = 101%nat ∧
  all_status_messages
    (mainloop (λ _, "") (statustext_inputs sample_statustexts) initial_state)
  = reverse (status_lines (drop 1 sample_statustexts)) ∧
  length (all_status_messages
    (mainloop (λ _, "") (statustext_inputs sample_statustexts) initial_state))
  = 100%nat.
Proof.
  split; [reflexivity|].
  destruct (status_log_capacity (λ _, "") sample_statustexts)
    as (_ & _ & _ & _ & H101).
  apply H101. reflexivity.
Defined.


(** ** The system-status panel *)

Lemma lift_run {A : Type} (r : Py.exn + A) (s : state) :
  lift r s = (match r with inl e => Raise e | inr a => Ok a end, s).
Proof. by destruct r. Qed.

Lemma handle_heartbeat_run (mode_string_v10 : mavlink_message → string)
    (type autopilot base_mode custom_mode : Z) (s : state) :
  let msg := HEARTBEAT type autopilot base_mode custom_mode in
  let line1 := armed_line base_mode in
  let line2 := mode_line (mode_string_v10 msg) custom_mode in
  handle_system_status mode_string_v10 msg s =
  (Ok (), State (all_status_messages s) (status_text_widget s)
             (line1 +:+ line2) (stdout s)
             (tk_calls s ++
              [Tk.TextDelete Tk.system_info_text Tk.Line1Char0 Tk.END;
               Tk.TextInsert Tk.system_info_text Tk.END line1;
               Tk.TextInsert Tk.system_info_text Tk.END line2])).
Proof.
  intros msg line1 line2. unfold handle_system_status. cbn [get_type msg].
  change ("HEARTBEAT" =? "HEARTBEAT")%string with true. cbv iota.
  cbn [msg_base_mode msg_custom_mode msg].
  rewrite bind_run, mret_run, bind_run, mret_run.
  rewrite bind_run, delete_all_run.
  rewrite bind_run, insert_system_info_run. proj_state.
  rewrite insert_system_info_run. proj_state.
  by rewrite <- !app_assoc.
Qed.

Lemma handle_sys_status_run (mode_string_v10 : mavlink_message → string)
    (voltage_battery raw_load : Z) (s : state) :
  handle_system_status mode_string_v10 (SYS_STATUS voltage_battery raw_load) s
  = (snd (sys_status_render voltage_battery raw_load),
     State (all_status_messages s) (status_text_widget s)
       (foldl String.append (system_info_text_widget s)
          (fst (sys_status_render voltage_battery raw_load)))
       (stdout s)
       (tk_calls s ++
        (Tk.TextInsert Tk.system_info_text Tk.END <$>
         fst (sys_status_render voltage_battery raw_load)))).
Proof.
  assert (Hid : ∀ s0 : state, s0 =
    State (all_status_messages s0) (status_text_widget s0)
      (system_info_text_widget s0) (stdout s0) (tk_calls s0 ++ [])).
  { intros [? ? ? ? ?]. simpl. by rewrite app_nil_r. }
  unfold handle_system_status, sys_status_render, battery_voltage_of,
    cpu_usage_of.
  cbn [get_type]. change ("SYS_STATUS" =? "HEARTBEAT")%string with false.
  change ("SYS_STATUS" =? "SYS_STATUS")%string with true. cbv iota.
  cbn [msg_voltage_battery msg_load].
  rewrite bind_run, mret_run, bind_run.
  destruct (voltage_battery =? -1);
    [ rewrite mret_run
    | rewrite bind_run, lift_run;
      destruct (Py.int_truediv_float voltage_battery Py.f1000) as [e|volts];
      [ cbn [fst snd foldl fmap list_fmap]; f_equal; apply Hid
      | rewrite mret_run ] ].
  all: rewrite bind_run, mret_run, bind_run, lift_run.
  all: destruct (Py.int_truediv_float raw_load Py.f10) as [e|load];
    [ cbn [fst snd foldl fmap list_fmap]; f_equal; apply Hid | ].
  all: rewrite bind_run.
  all: destruct (raw_load =? -1);
    [ rewrite mret_run | rewrite bind_run, lift_run, mret_run ].
  all: rewrite bind_run, lift_run; cbn [Py.format_f].
  all: try (cbn [fst snd foldl fmap list_fmap]; f_equal; apply Hid).
  all: rewrite bind_run, insert_system_info_run; proj_state.
  all: rewrite bind_run, lift_run, bind_run, insert_system_info_run;
    proj_state.
  all: rewrite bind_run, lift_run.
  all: try rewrite insert_system_info_run; proj_state.
  all: cbn [fst snd foldl fmap list_fmap app]; rewrite <- ?app_assoc;
    reflexivity.
Qed.

Lemma foldl_append (s : string) (lines : list string) :
  foldl String.append s lines = s +:+ foldr String.append "" lines.
Proof.
  revert s. induction lines as [|line lines IH]; intros s; simpl.
  - by rewrite string_app_nil_r.
  - by rewrite IH, string_app_assoc.
Qed.

(** A SYS_STATUS only appends to the panel, and touches nothing else. *)
Lemma handle_sys_status_state (mode_string_v10 : mavlink_message → string)
    (voltage_battery raw_load : Z) (s : state) :
  let lines := fst (sys_status_render voltage_battery raw_load) in
  exec (handle_system_status mode_string_v10
          (SYS_STATUS voltage_battery raw_load)) s =
  State (all_status_messages s) (status_text_widget s)
    (system_info_text_widget s +:+ foldr String.append "" lines)
    (stdout s)
    (tk_calls s ++ (Tk.TextInsert Tk.system_info_text Tk.END <$> lines)).
Proof.
  intros lines. unfold exec. rewrite handle_sys_status_run. cbn [snd].
  by rewrite foldl_append.
Qed.

(** A message of another class has none of the fields the handlers read:
    the handlers raise before any effect. *)
Lemma handle_statustext_other (now : datetime) (msg : mavlink_message)
    (s : state) :
  (∀ sev text, msg ≠ STATUSTEXT sev text) →
  handle_statustext now msg s = (Raise Py.AttributeError, s).
Proof.
  intros Hne. destruct msg as [sev text| | |]; [by destruct (Hne sev text)| ..];
    reflexivity.
Qed.

Lemma handle_system_status_other
    (mode_string_v10 : mavlink_message → string) (name : string) (id : Z)
    (s : state) :
  snd (handle_system_status mode_string_v10 (OTHER name id) s) = s.
Proof.
  unfold handle_system_status. cbn [get_type].
  destruct (name =? "HEARTBEAT")%string; [reflexivity|].
  destruct (name =? "SYS_STATUS")%string; reflexivity.
Qed.

(** [handle_system_status] leaves the status log, its view and standard
    output alone, on every message. *)
Lemma handle_system_status_frame
    (mode_string_v10 : mavlink_message → string) (msg : mavlink_message)
    (s : state) :
  let s' := exec (handle_system_status mode_string_v10 msg) s in
  all_status_messages s' = all_status_messages s ∧
  status_text_widget s' = status_text_widget s ∧
  stdout s' = stdout s.
Proof.
  destruct msg as [sev text|t a b c|v l|name id]; cbv zeta.
  - by unfold exec.
  - unfold exec. by rewrite handle_heartbeat_run.
  - by rewrite handle_sys_status_state.
  - unfold exec. by rewrite handle_system_status_other.
Qed.

(** [handle_statustext] leaves the panel and standard output alone, on
    every message, and never shortens the log below what capacity allows. *)
Lemma handle_statustext_frame (now : datetime) (msg : mavlink_message)
    (s : state) :
  let s' := exec (handle_statustext now msg) s in
  system_info_text_widget s' = system_info_text_widget s ∧
  stdout s' = stdout s ∧
  ((length (all_status_messages s) ≤ max_messages)%nat →
   (length (all_status_messages s') ≤ max_messages)%nat).
Proof.
  destruct msg as [sev text|t a b c|v l|name id]; cbv zeta;
    [ | by unfold exec; rewrite handle_statustext_other ..].
  split; [|split].
  - unfold exec. rewrite handle_statustext_run. cbn [snd].
    by destruct (max_messages <? S (length (all_status_messages s)))%nat.
  - unfold exec. rewrite handle_statustext_run. cbn [snd].
    by destruct (max_messages <? S (length (all_status_messages s)))%nat.
  - intros Hlen. rewrite statustext_list_take by done.
    rewrite length_take. lia.
Qed.

(** Re-arming the poll after a handler changes the call log only. *)
Lemma then_rearm (m : M unit) (s : state) :
  let s1 := exec m s in
  let s2 := exec (m ;; root_after 50 "detect_incoming_messages") s in
  all_status_messages s2 = all_status_messages s1 ∧
  status_text_widget s2 = status_text_widget s1 ∧
  system_info_text_widget s2 = system_info_text_widget s1 ∧
  stdout s2 = stdout s1 ∧
  fst ((m ;; root_after 50 "detect_incoming_messages") s) = fst (m s) ∧
  tk_calls s2 =
    tk_calls s1 ++ match fst (m s) with Ok _ => [rearm_call] | _ => [] end.
Proof.
  unfold exec. rewrite bind_run. destruct (m s) as [[[]|e] s1]; simpl.
  - done.
  - by rewrite app_nil_r.
Qed.

(** ** Routing *)

Lemma detect_routed (mode_string_v10 : mavlink_message → string)
    (now : datetime) (msg : mavlink_message) :
  detect_incoming_messages mode_string_v10 (Some msg) now =
  (routed mode_string_v10 now msg ;;
   root_after 50 "detect_incoming_messages").
Proof. reflexivity. Qed.

(** Whatever a poll delivers, the log stays within capacity and the other
    handlers do not touch it. *)
Lemma routed_length (mode_string_v10 : mavlink_message → string)
    (now : datetime) (msg : mavlink_message) (s : state) :
  (length (all_status_messages s) ≤ max_messages)%nat →
  (length (all_status_messages (exec (routed mode_string_v10 now msg) s))
   ≤ max_messages)%nat.
Proof.
  intros Hlen. unfold routed.
  destruct (get_type msg =? "STATUSTEXT")%string.
  - by apply handle_statustext_frame.
  - destruct ((get_type msg =? "HEARTBEAT")%string
              || (get_type msg =? "SYS_STATUS")%string).
    + by rewrite (proj1 (handle_system_status_frame mode_string_v10 msg s)).
    + done.
Qed.

Lemma detect_length (mode_string_v10 : mavlink_message → string)
    (received : option mavlink_message) (now : datetime) (s : state) :
  (length (all_status_messages s) ≤ max_messages)%nat →
  (length (all_status_messages
     (exec (detect_incoming_messages mode_string_v10 received now) s))
   ≤ max_messages)%nat.
Proof.
  intros Hlen. destruct received as [msg|].
  - rewrite detect_routed, (proj1 (then_rearm _ s)). by apply routed_length.
  - done.
Qed.

Lemma mainloop_length (mode_string_v10 : mavlink_message → string)
    (inputs : list (option mavlink_message * datetime)) (s : state) :
  (length (all_status_messages s) ≤ max_messages)%nat →
  (length (all_status_messages (mainloop mode_string_v10 inputs s))
   ≤ max_messages)%nat.
Proof.
  revert s. induction inputs as [|[received now] inputs IH]; intros s Hlen;
    [done|].
  cbn [mainloop].
  pose proof (detect_length mode_string_v10 received now s Hlen) as Hstep.
  unfold exec in Hstep.
  destruct (detect_incoming_messages mode_string_v10 received now s)
    as [[[]|e] s']; cbn [snd] in Hstep; auto.
Qed.

(** C3: [handle_statustext] always puts the new line at the front of
    [all_status_messages]; below capacity nothing is removed; at capacity
    exactly the last (oldest) entry is removed and every other entry stays
    in order; a list within capacity stays within capacity, and in every
    run of the program from its start the list is within capacity after
    each poll. *)
Theorem statustext_insert_evicts_oldest
    (now : datetime) (sev : Z) (text : string) (s : state) :
  let line := status_line now sev text in
  let log := all_status_messages s in
  let log' :=
    all_status_messages (exec (handle_statustext now (STATUSTEXT sev text)) s) in
  returns (handle_statustext now (STATUSTEXT sev text)) s ∧
  (∃ rest, log' = line :: rest) ∧
  ((length log < max_messages)%nat → log' = line :: log) ∧
  ((length log = max_messages)%nat →
   ∃ kept oldest, log = kept ++ [oldest] ∧ log' = line :: kept) ∧
  ((length log ≤ max_messages)%nat → (length log' ≤ max_messages)%nat) ∧
  (∀ mode_string_v10 inputs,
     (length (all_status_messages
        (mainloop mode_string_v10 inputs initial_state)) ≤ max_messages)%nat).
Proof.
  intros line log log'.
  assert (Hlog' : log' =
    if (max_messages <? S (length log))%nat
    then removelast (line :: log) else line :: log)
    by apply statustext_list.
  split; [apply returns_statustext|]. split; [|split; [|split; [|split]]].
  - rewrite Hlog'.
    destruct (Nat.ltb_spec max_messages (S (length log))) as [Hfull|Hroom];
      [|by eauto].
    destruct log as [|x log0]; [simpl in Hfull; unfold max_messages in Hfull; lia|].
    exists (removelast (x :: log0)). reflexivity.
  - intros Hlt. rewrite Hlog'.
    destruct (Nat.ltb_spec max_messages (S (length log))); [lia|done].
  - intros Heq. rewrite Hlog'.
    destruct (Nat.ltb_spec max_messages (S (length log))); [|lia].
    destruct (exists_last (l := log)) as (kept & oldest & Hsplit).
    { intros ->. simpl in Heq. unfold max_messages in Heq. lia. }
    exists kept, oldest. split; [done|].
    rewrite Hsplit.
    change (line :: kept ++ [oldest]) with ((line :: kept) ++ [oldest]).
    by rewrite removelast_last.
  - intros Hle. subst log'. by apply handle_statustext_frame.
  - intros mode_string_v10 inputs. apply mainloop_length. simpl. lia.
Qed.

Lemma statustext_insert_evicts_oldest_witness :
  (length (all_status_messages full_log_state) = max_messages ∧
   ∃ kept oldest,
     all_status_messages full_log_state = kept ++ [oldest] ∧
     all_status_messages
       (exec (handle_statustext sample_now (STATUSTEXT 3 "Low battery"))
          full_log_state)
     = status_line sample_now 3 "Low battery" :: kept) ∧
  ((length (all_status_messages initial_state) < max_messages)%nat ∧
   all_status_messages
     (exec (handle_statustext sample_now (STATUSTEXT 3 "Low battery"))
        initial_state)
   = [status_line sample_now 3 "Low battery"]) ∧
  (length (all_status_messages
     (exec (handle_statustext sample_now (STATUSTEXT 3 "Low battery"))
        full_log_state)) ≤ max_messages)%nat.
Proof.
  destruct (statustext_insert_evicts_oldest sample_now 3 "Low battery"
              full_log_state) as (_ & _ & _ & Hfull & Hle & _).
  destruct (statustext_insert_evicts_oldest sample_now 3 "Low battery"
              initial_state) as (_ & _ & Hroom & _).
  split; [|split].
  - split; [reflexivity|]. apply Hfull. reflexivity.
  - split; [simpl; unfold max_messages; lia|].
    apply Hroom. simpl. unfold max_messages. lia.
  - apply Hle. simpl. unfold max_messages. lia.
Defined.

(** C4: a poll that receives a message hands it to exactly one handler,
    chosen by the message type, and then re-arms itself: STATUSTEXT goes to
    [handle_statustext], which leaves the system-status panel and standard
    output alone; HEARTBEAT and SYS_STATUS go to [handle_system_status],
    which leaves the status log, its view and standard output alone; a
    message of any other type is only reported on standard output, and
    neither the log nor a widget changes. *)
Theorem detect_routes_by_type
    (mode_string_v10 : mavlink_message → string)
    (msg : mavlink_message) (now : datetime) (s : state) :
  let rearm := root_after 50 "detect_incoming_messages" in
  let tick := detect_incoming_messages mode_string_v10 (Some msg) now in
  let s' := exec tick s in
  (get_type msg = "STATUSTEXT" →
     tick s = (handle_statustext now msg ;; rearm) s ∧
     system_info_text_widget s' = system_info_text_widget s ∧
     stdout s' = stdout s) ∧
  (get_type msg = "HEARTBEAT" ∨ get_type msg = "SYS_STATUS" →
     tick s = (handle_system_status mode_string_v10 msg ;; rearm) s ∧
     all_status_messages s' = all_status_messages s ∧
     status_text_widget s' = status_text_widget s ∧
     stdout s' = stdout s) ∧
  (get_type msg ≠ "STATUSTEXT" → get_type msg ≠ "HEARTBEAT" →
   get_type msg ≠ "SYS_STATUS" →
     tick s =
     (Ok (), State (all_status_messages s) (status_text_widget s)
                (system_info_text_widget s)
                (stdout s ++ ["Unknown message type received: ID " +:+
                              Py.str_int (get_msgId msg)])
                (tk_calls s ++ [rearm_call]))).
Proof.
  intros rearm tick s'. subst tick s' rearm.
  rewrite detect_routed. unfold routed.
  split; [|split].
  - intros Htype. rewrite Htype.
    change ("STATUSTEXT" =? "STATUSTEXT")%string with true. cbv iota.
    split; [done|].
    destruct (then_rearm (handle_statustext now msg) s)
      as (_ & _ & Hinfo & Hout & _).
    destruct (handle_statustext_frame now msg s) as (Hinfo' & Hout' & _).
    split; congruence.
  - intros Htype.
    assert (Hsel : (get_type msg =? "STATUSTEXT")%string = false ∧
                   ((get_type msg =? "HEARTBEAT")%string
                    || (get_type msg =? "SYS_STATUS")%string) = true).
    { destruct Htype as [-> | ->]; by split. }
    destruct Hsel as [-> ->]. cbv iota.
    split; [done|].
    destruct (then_rearm (handle_system_status mode_string_v10 msg) s)
      as (Hlog & Hview & _ & Hout & _).
    destruct (handle_system_status_frame mode_string_v10 msg s)
      as (Hlog' & Hview' & Hout').
    repeat split; congruence.
  - intros H1 H2 H3.
    apply String.eqb_neq in H1, H2, H3. rewrite H1, H2, H3. cbv iota.
    cbn [orb]. by rewrite bind_run, log_unknown_message_run, root_after_run.
Qed.

Lemma detect_routes_by_type_witness :
  detect_incoming_messages (λ _, "AUTO")
    (Some (STATUSTEXT 3 "Low battery")) sample_now initial_state =
  (handle_statustext sample_now (STATUSTEXT 3 "Low battery") ;;
   root_after 50 "detect_incoming_messages") initial_state ∧
  detect_incoming_messages (λ _, "AUTO")
    (Some (SYS_STATUS 11800 320)) sample_now initial_state =
  (handle_system_status (λ _, "AUTO") (SYS_STATUS 11800 320) ;;
   root_after 50 "detect_incoming_messages") initial_state ∧
  detect_incoming_messages (λ _, "AUTO")
    (Some (OTHER "ATTITUDE" 30)) sample_now initial_state =
  (Ok (), State [] "" "" ["Unknown message type received: ID 30"]
             [rearm_call]).
Proof.
  split; [|split].
  - apply (detect_routes_by_type (λ _, "AUTO") (STATUSTEXT 3 "Low battery")
             sample_now initial_state). reflexivity.
  - apply (detect_routes_by_type (λ _, "AUTO") (SYS_STATUS 11800 320)
             sample_now initial_state). right. reflexivity.
  - apply (detect_routes_by_type (λ _, "AUTO") (OTHER "ATTITUDE" 30)
             sample_now initial_state); discriminate.
Defined.

(** ** The display line of a status text *)

Lemma severity_levels_get_unknown (code : Z) :
  code < 0 ∨ 7 < code → severity_levels_get code = ("UNKNOWN", "black").
Proof.
  intros Hcode. unfold severity_levels_get, severity_levels.
  rewrite !lookup_insert_ne by lia. by rewrite lookup_empty.
Qed.

(** Every description of the table, the fallback included, fits the
    12-character field. *)
Lemma severity_description_length (code : Z) :
  (String.length (fst (severity_levels_get code)) ≤ 12)%nat.
Proof.
  destruct (decide (code < 0 ∨ 7 < code)) as [Hout|Hin].
  - rewrite severity_levels_get_unknown by done. simpl. lia.
  - assert (code = 0 ∨ code = 1 ∨ code = 2 ∨ code = 3 ∨ code = 4 ∨
            code = 5 ∨ code = 6 ∨ code = 7) as Hcases by lia.
    destruct Hcases as [->|[->|[->|[->|[->|[->|[->| ->]]]]]]];
      vm_compute; lia.
Qed.

(** C7 (as the code has it): the display line is the timestamp, the
    bracketed severity description and the text, each left-aligned and
    filled with spaces on the right, to 20, 12 and 60 characters; the
    19-character timestamp is followed by one space, the description always
    fits its field, and a text longer than 60 characters is kept whole.  The
    line is put at the front of the log and, followed by a newline, at the
    top of the log view. *)
Theorem statustext_line_layout
    (now : datetime) (sev : Z) (text : string) (s : state) :
  let label := fst (severity_levels_get sev) in
  let line := status_line now sev text in
  let s' := exec (handle_statustext now (STATUSTEXT sev text)) s in
  line = (strftime now +:+ " ") +:+ " [" +:+
         (label +:+ Py.repeat_char " " (12 - String.length label)) +:+ "] " +:+
         (text +:+ Py.repeat_char " " (60 - String.length text)) ∧
  String.length (strftime now +:+ " ") = 20%nat ∧
  String.length (label +:+ Py.repeat_char " " (12 - String.length label))
    = 12%nat ∧
  String.length (text +:+ Py.repeat_char " " (60 - String.length text))
    = Nat.max 60 (String.length text) ∧
  String.length line = (36 + Nat.max 60 (String.length text))%nat ∧
  (∃ rest, all_status_messages s' = line :: rest) ∧
  (∃ later,
     tk_calls s' =
     tk_calls s ++
     Tk.TextInsert Tk.status_text Tk.Line1Char0 (line +:+ nl) :: later).
Proof.
  intros label line s'.
  pose proof (severity_description_length sev) as Hlabel. fold label in Hlabel.
  assert (Hline : line = (strftime now +:+ " ") +:+ " [" +:+
         (label +:+ Py.repeat_char " " (12 - String.length label)) +:+ "] " +:+
         (text +:+ Py.repeat_char " " (60 - String.length text))).
  { subst line. unfold status_line, full_message_of.
    by rewrite ljust_strftime. }
  assert (Hts : String.length (strftime now +:+ " ") = 20%nat) by reflexivity.
  assert (Hlb : String.length
            (label +:+ Py.repeat_char " " (12 - String.length label)) = 12%nat).
  { rewrite string_app_length, repeat_char_length. lia. }
  assert (Htx : String.length
            (text +:+ Py.repeat_char " " (60 - String.length text))
            = Nat.max 60 (String.length text)).
  { rewrite string_app_length, repeat_char_length. lia. }
  split; [done|]. split; [done|]. split; [done|]. split; [done|]. split.
  - rewrite Hline.
    rewrite !string_app_length, !repeat_char_length, strftime_length.
    simpl. lia.
  - subst s'. unfold exec. rewrite handle_statustext_run. cbn [snd].
    fold line.
    destruct (Nat.ltb_spec max_messages (S (length (all_status_messages s))))
      as [Hfull|Hroom]; proj_state.
    + split.
      * destruct (all_status_messages s) as [|x log0];
          [simpl in Hfull; unfold max_messages in Hfull; lia|].
        exists (removelast (x :: log0)). reflexivity.
      * unfold status_insert_calls. fold line. simpl. eauto.
    + split; [eauto|]. unfold status_insert_calls. fold line. simpl. eauto.
Qed.

(** C7, as stated, fails: the timestamp is not padded on its left.  With
    the clock at 2024-01-02 03:04:05 the line starts with the timestamp,
    not with a space. *)
Lemma statustext_timestamp_not_left_padded :
  all_status_messages
    (exec (handle_statustext sample_now (STATUSTEXT 6 "ok")) initial_state)
  ≠ [Py.rjust 20 (strftime sample_now) +:+ " [" +:+ Py.ljust 12 "INFO" +:+
     "] " +:+ Py.ljust 60 "ok"].
Proof. vm_compute. intros Heq. discriminate Heq. Qed.

(** ** HEARTBEAT clears the panel, SYS_STATUS appends to it *)

Lemma routed_no_system_status (mode_string_v10 : mavlink_message → string)
    (now : datetime) (msg : mavlink_message) (s : state) :
  is_system_status msg = false →
  system_info_text_widget (exec (routed mode_string_v10 now msg) s) =
  system_info_text_widget s.
Proof.
  intros Hquiet. unfold routed.
  destruct (get_type msg =? "STATUSTEXT")%string.
  - by apply handle_statustext_frame.
  - destruct ((get_type msg =? "HEARTBEAT")%string
              || (get_type msg =? "SYS_STATUS")%string); [|done].
    destruct msg as [sev text|t a b c|v l|name id]; try discriminate Hquiet.
    + done.
    + unfold exec. by rewrite handle_system_status_other.
Qed.

Lemma mainloop_no_system_status (mode_string_v10 : mavlink_message → string)
    (inputs : list (option mavlink_message * datetime)) (s : state) :
  forallb no_system_status inputs = true →
  system_info_text_widget (mainloop mode_string_v10 inputs s) =
  system_info_text_widget s.
Proof.
  revert s. induction inputs as [|[received now] inputs IH]; intros s Hquiet;
    [done|].
  cbn [forallb] in Hquiet. apply andb_true_iff in Hquiet as [Hfirst Hrest].
  cbn [mainloop].
  assert (Hstep : system_info_text_widget
            (exec (detect_incoming_messages mode_string_v10 received now) s)
          = system_info_text_widget s).
  { destruct received as [msg|]; [|done].
    rewrite detect_routed.
    destruct (then_rearm (routed mode_string_v10 now msg) s)
      as (_ & _ & -> & _).
    apply routed_no_system_status.
    unfold no_system_status in Hfirst. cbn [fst] in Hfirst.
    by destruct (is_system_status msg). }
  unfold exec in Hstep.
  destruct (detect_incoming_messages mode_string_v10 received now s)
    as [[[]|e] s']; cbn [snd] in Hstep; [|done].
  by rewrite IH.
Qed.

(** C5: a HEARTBEAT replaces the whole panel by its two lines, armed status
    and flight mode, whatever the panel showed; a SYS_STATUS keeps the panel
    content and appends to it, the three battery, load and CPU lines when it
    returns; so after a HEARTBEAT, for as long as the polls deliver no
    SYS_STATUS (and no further HEARTBEAT), the panel shows the two HEARTBEAT
    lines only. *)
Theorem heartbeat_clears_sys_status_appends
    (mode_string_v10 : mavlink_message → string) (s : state) :
  (∀ type autopilot base_mode custom_mode,
     let msg := HEARTBEAT type autopilot base_mode custom_mode in
     returns (handle_system_status mode_string_v10 msg) s ∧
     system_info_text_widget
       (exec (handle_system_status mode_string_v10 msg) s) =
     armed_line base_mode +:+
     mode_line (mode_string_v10 msg) custom_mode) ∧
  (∀ voltage_battery raw_load,
     let handler :=
       handle_system_status mode_string_v10
         (SYS_STATUS voltage_battery raw_load) in
     ∃ lines,
       system_info_text_widget (exec handler s) =
       system_info_text_widget s +:+ foldr String.append "" lines ∧
       (returns handler s →
        ∃ s1 s2 s3, lines = [battery_line s1; load_line s2; cpu_line s3])) ∧
  (∀ type autopilot base_mode custom_mode now inputs,
     let msg := HEARTBEAT type autopilot base_mode custom_mode in
     forallb no_system_status inputs = true →
     system_info_text_widget
       (mainloop mode_string_v10 ((Some msg, now) :: inputs) s) =
     armed_line base_mode +:+
     mode_line (mode_string_v10 msg) custom_mode).
Proof.
  split; [|split].
  - intros t a b c msg. unfold returns, exec. subst msg.
    rewrite handle_heartbeat_run. eauto.
  - intros v l handler. subst handler.
    exists (fst (sys_status_render v l)).
    rewrite handle_sys_status_state. split; [done|].
    unfold returns. rewrite handle_sys_status_run. cbn [fst].
    unfold sys_status_render.
    destruct (battery_voltage_of v) as [e|bv]; [by intros [? ?]|].
    destruct (Py.int_truediv_float l Py.f10) as [e|load]; [by intros [? ?]|].
    destruct (cpu_usage_of l) as [e|cpu]; [by intros [? ?]|].
    destruct (Py.format_f 2 bv) as [e|s1]; [by intros [? ?]|].
    destruct (Py.format_f 1 cpu) as [e|s3]; [by intros [? ?]|].
    intros _. cbn [fst app]. eauto.
  - intros t a b c now inputs msg Hquiet. subst msg.
    cbn [mainloop]. rewrite detect_routed. unfold routed. cbn [get_type].
    change ("HEARTBEAT" =? "STATUSTEXT")%string with false.
    change ("HEARTBEAT" =? "HEARTBEAT")%string with true. cbv iota. cbn [orb].
    rewrite bind_run, handle_heartbeat_run, root_after_run.
    by rewrite mainloop_no_system_status.
Qed.

Lemma heartbeat_clears_sys_status_appends_witness :
  forallb no_system_status
    [(Some (STATUSTEXT 3 "Low battery"), sample_now); (None, sample_now);
     (Some (OTHER "ATTITUDE" 30), sample_now)] = true ∧
  system_info_text_widget
    (mainloop (λ _, "AUTO")
       [(Some sample_heartbeat, sample_now);
        (Some (STATUSTEXT 3 "Low battery"), sample_now); (None, sample_now);
        (Some (OTHER "ATTITUDE" 30), sample_now)]
       (State [] "" (battery_line "11.80") [] []))
  = armed_line 209 +:+ mode_line "AUTO" 4 ∧
  returns (handle_system_status (λ _, "AUTO") (SYS_STATUS 11800 320))
    initial_state ∧
  ∃ s1 s2 s3 lines,
    lines = [battery_line s1; load_line s2; cpu_line s3] ∧
    system_info_text_widget
      (exec (handle_system_status (λ _, "AUTO") (SYS_STATUS 11800 320))
         (exec (handle_system_status (λ _, "AUTO") sample_heartbeat)
            initial_state))
    = (armed_line 209 +:+ mode_line "AUTO" 4) +:+
      foldr String.append "" lines.
Proof.
  split; [reflexivity|]. split; [|split].
  - apply (heartbeat_clears_sys_status_appends (λ _, "AUTO")
             (State [] "" (battery_line "11.80") [] [])). reflexivity.
  - exists (). reflexivity.
  - destruct (heartbeat_clears_sys_status_appends (λ _, "AUTO")
                (exec (handle_system_status (λ _, "AUTO") sample_heartbeat)
                   initial_state)) as (_ & Happend & _).
    destruct (Happend 11800 320) as (lines & Hshown & Hlines).
    destruct Hlines as (s1 & s2 & s3 & ->); [exists (); reflexivity|].
    exists s1, s2, s3, [battery_line s1; load_line s2; cpu_line s3].
    split; [reflexivity|]. exact Hshown.
Defined.

(** ** The sentinel values of SYS_STATUS *)

(** Ints of that size convert to float without overflow. *)
Lemma float_of_int_returns (x : Z) :
  Z.abs x < 2 ^ 1023 → ∃ f, Py.float_of_int x = inr f.
Proof.
  intros Hx. unfold Py.float_of_int.
  destruct (x =? 0) eqn:Hzero; [eauto|].
  apply Z.eqb_neq in Hzero.
  assert (Hlog : Z.log2 (Z.abs x) < 1023) by (apply Z.log2_lt_pow2; lia).
  unfold Py.round53. change (Z.log2 1) with 0.
  set (k := Z.log2 (Z.abs x) - 0) in *.
  destruct (Py.scale2 (Z.abs x) 1 k) as [nk dk].
  set (e := if dk <=? nk then k - 52 else k - 53).
  assert (He : e ≤ 970) by (subst e; destruct (dk <=? nk); lia).
  destruct (Py.scale2 (Z.abs x) 1 e) as [ne de].
  destruct (Py.round_half_even ne de =? 2 ^ 53).
  - replace (971 <? e + 1) with false by (symmetry; apply Z.ltb_ge; lia).
    eauto.
  - replace (971 <? e) with false by (symmetry; apply Z.ltb_ge; lia).
    eauto.
Qed.

Lemma int_truediv_float_returns (x : Z) (y : Py.float) :
  wire_int x → ∃ q, Py.int_truediv_float x y = inr q.
Proof.
  intros [Hlo Hhi]. unfold Py.int_truediv_float.
  destruct (float_of_int_returns x) as [f ->]; [|eauto].
  assert (2 ^ 64 < 2 ^ 1023) by (apply Z.pow_lt_mono_r; lia).
  assert (2 ^ 63 < 2 ^ 64) by (apply Z.pow_lt_mono_r; lia).
  lia.
Qed.

(** C10: a SYS_STATUS whose [voltage_battery] is -1 makes
    [handle_system_status] raise, with nothing rendered: for any [load] the
    handler raises and leaves the state as it was, and for a [load] that
    fits its field the exception is the [ValueError] of formatting the str
    ['N/A'] with ['.2f'].  With a reported voltage and [load] -1, the
    battery line and the line [System Load: -0.1%] (the load is divided by
    10 with no sentinel test) are appended, and then the CPU line raises
    the same [ValueError]. *)
Theorem sys_status_sentinel_raises
    (mode_string_v10 : mavlink_message → string) (s : state) :
  (∀ raw_load, ∃ e,
     handle_system_status mode_string_v10 (SYS_STATUS (-1) raw_load) s =
     (Raise e, s)) ∧
  (∀ raw_load, wire_int raw_load →
     handle_system_status mode_string_v10 (SYS_STATUS (-1) raw_load) s =
     (Raise Py.ValueError, s)) ∧
  (∀ voltage_battery, voltage_battery ≠ -1 → wire_int voltage_battery →
     ∃ volts,
       Py.int_truediv_float voltage_battery Py.f1000 = inr volts ∧
       handle_system_status mode_string_v10
         (SYS_STATUS voltage_battery (-1)) s =
       (Raise Py.ValueError,
        State (all_status_messages s) (status_text_widget s)
          (system_info_text_widget s +:+
           battery_line (Py.format_float_f 2 volts) +:+ load_line "-0.1")
          (stdout s)
          (tk_calls s ++
           [Tk.TextInsert Tk.system_info_text Tk.END
              (battery_line (Py.format_float_f 2 volts));
            Tk.TextInsert Tk.system_info_text Tk.END (load_line "-0.1")]))).
Proof.
  assert (Hid : ∀ s0 : state,
    State (all_status_messages s0) (status_text_widget s0)
      (system_info_text_widget s0 +:+ "") (stdout s0) (tk_calls s0 ++ [])
    = s0).
  { intros [? ? ? ? ?]. simpl. by rewrite app_nil_r, string_app_nil_r. }
  assert (Hsentinel : ∀ raw_load,
    fst (sys_status_render (-1) raw_load) = [] ∧
    ∃ e, snd (sys_status_render (-1) raw_load) = Raise e ∧
         (wire_int raw_load → e = Py.ValueError)).
  { intros l. unfold sys_status_render. cbn [battery_voltage_of Z.eqb].
    change (battery_voltage_of (-1)) with (@inr Py.exn _ (Py.VStr "N/A")).
    cbv iota.
    destruct (Py.int_truediv_float l Py.f10) as [e|load] eqn:Hload.
    - split; [done|]. exists e. split; [done|]. intros Hwire.
      destruct (int_truediv_float_returns l Py.f10 Hwire) as [q Hq].
      congruence.
    - unfold cpu_usage_of. rewrite Hload.
      destruct (l =? -1); cbn [Py.format_f fst snd]; eauto. }
  split; [|split].
  - intros l. destruct (Hsentinel l) as (Hlines & e & Hres & _).
    exists e. rewrite handle_sys_status_run, Hlines, Hres.
    cbn [foldl fmap list_fmap]. f_equal.
    rewrite <- (Hid s) at 6. by rewrite string_app_nil_r.
  - intros l Hwire. destruct (Hsentinel l) as (Hlines & e & Hres & He).
    rewrite handle_sys_status_run, Hlines, Hres, (He Hwire).
    cbn [foldl fmap list_fmap]. f_equal.
    rewrite <- (Hid s) at 6. by rewrite string_app_nil_r.
  - intros v Hv Hwire.
    destruct (int_truediv_float_returns v Py.f1000 Hwire) as [volts Hvolts].
    exists volts. split; [done|].
    rewrite handle_sys_status_run.
    assert (Hrender : sys_status_render v (-1) =
      ([battery_line (Py.format_float_f 2 volts); load_line "-0.1"],
       Raise Py.ValueError)).
    { unfold sys_status_render, battery_voltage_of.
      rewrite (proj2 (Z.eqb_neq v (-1)) Hv), Hvolts.
      reflexivity. }
    rewrite Hrender. cbn [fst snd foldl fmap list_fmap].
    by rewrite string_app_assoc.
Qed.

Lemma sys_status_sentinel_raises_witness :
  handle_system_status (λ _, "AUTO") (SYS_STATUS (-1) 550) initial_state =
  (Raise Py.ValueError, initial_state) ∧
  ∃ volts,
    Py.int_truediv_float 12600 Py.f1000 = inr volts ∧
    handle_system_status (λ _, "AUTO") (SYS_STATUS 12600 (-1)) initial_state =
    (Raise Py.ValueError,
     State [] ""
       ("" +:+ battery_line (Py.format_float_f 2 volts) +:+ load_line "-0.1")
       []
       ([] ++
        [Tk.TextInsert Tk.system_info_text Tk.END
           (battery_line (Py.format_float_f 2 volts));
         Tk.TextInsert Tk.system_info_text Tk.END (load_line "-0.1")])).
Proof.
  destruct (sys_status_sentinel_raises (λ _, "AUTO") initial_state)
    as (_ & Hvoltage & Hload).
  split.
  - apply Hvoltage. unfold wire_int. lia.
  - apply Hload; [lia | unfold wire_int; lia].
Defined.

(** C1 (where the code departs from it): at the sentinel the handler does
    not render a placeholder.  With [voltage_battery = -1] and [load = 550]
    it raises [ValueError] and the panel is unchanged; with
    [voltage_battery = 12600] and [load = -1] it shows [12.60V] and a
    system load of [-0.1%] and then raises.  Without a sentinel the scaling
    is the one stated: 12600 mV shows as [12.60V] and a load of 550 as
    [55.0%], on both the load and the CPU line. *)
Theorem sys_status_sentinel_not_rendered
    (mode_string_v10 : mavlink_message → string) (s : state) :
  handle_system_status mode_string_v10 (SYS_STATUS (-1) 550) s =
  (Raise Py.ValueError, s) ∧
  handle_system_status mode_string_v10 (SYS_STATUS 12600 (-1)) s =
  (Raise Py.ValueError,
   State (all_status_messages s) (status_text_widget s)
     (system_info_text_widget s +:+
      battery_line "12.60" +:+ load_line "-0.1")
     (stdout s)
     (tk_calls s ++
      [Tk.TextInsert Tk.system_info_text Tk.END (battery_line "12.60");
       Tk.TextInsert Tk.system_info_text Tk.END (load_line "-0.1")])) ∧
  handle_system_status mode_string_v10 (SYS_STATUS 12600 550) s =
  (Ok (),
   State (all_status_messages s) (status_text_widget s)
     (system_info_text_widget s +:+
      battery_line "12.60" +:+ load_line "55.0" +:+ cpu_line "55.0")
     (stdout s)
     (tk_calls s ++
      [Tk.TextInsert Tk.system_info_text Tk.END (battery_line "12.60");
       Tk.TextInsert Tk.system_info_text Tk.END (load_line "55.0");
       Tk.TextInsert Tk.system_info_text Tk.END (cpu_line "55.0")])).
Proof.
  assert (H1 : sys_status_render (-1) 550 = ([], Raise Py.ValueError))
    by (vm_compute; reflexivity).
  assert (H2 : sys_status_render 12600 (-1) =
    ([battery_line "12.60"; load_line "-0.1"], Raise Py.ValueError))
    by (vm_compute; reflexivity).
  assert (H3 : sys_status_render 12600 550 =
    ([battery_line "12.60"; load_line "55.0"; cpu_line "55.0"], Ok ()))
    by (vm_compute; reflexivity).
  rewrite !handle_sys_status_run, H1, H2, H3.
  cbn [fst snd foldl fmap list_fmap].
  rewrite !string_app_assoc, app_nil_r.
  destruct s; repeat split.
Qed.

(** * Further properties *)

(** ** The log view shows the log *)

Lemma no_newline_app (s t : string) :
  no_newline (s +:+ t) = no_newline s && no_newline t.
Proof.
  induction s as [|c s IH]; [done|].
  rewrite string_app_cons. simpl. rewrite IH. by rewrite andb_assoc.
Qed.

Lemma no_newline_repeat_space (n : nat) :
  no_newline (Py.repeat_char " " n) = true.
Proof. induction n as [|n IH]; [done|]. simpl. by rewrite IH. Qed.

Lemma no_newline_ljust (w : nat) (s : string) :
  no_newline (Py.ljust w s) = no_newline s.
Proof.
  unfold Py.ljust. rewrite no_newline_app, no_newline_repeat_space.
  by rewrite andb_true_r.
Qed.

Lemma digit_not_newline (n : nat) : Ascii.eqb (digit n) Tk.newline = false.
Proof.
  unfold digit. pose proof (Nat.mod_upper_bound n 10) as Hlt.
  destruct (n mod 10)%nat as [|[|[|[|[|[|[|[|[|[|m]]]]]]]]]];
    [reflexivity .. | exfalso; lia].
Qed.

Lemma no_newline_dd (n : nat) : no_newline (dd n) = true.
Proof.
  unfold dd. cbn [no_newline]. by rewrite !digit_not_newline.
Qed.

Lemma no_newline_dddd (n : nat) : no_newline (dddd n) = true.
Proof.
  unfold dddd. cbn [no_newline].
  by rewrite !digit_not_newline, no_newline_dd.
Qed.

Lemma no_newline_strftime (now : datetime) : no_newline (strftime now) = true.
Proof.
  unfold strftime.
  rewrite !no_newline_app, no_newline_dddd, !no_newline_dd. reflexivity.
Qed.

Lemma no_newline_description (code : Z) :
  no_newline (fst (severity_levels_get code)) = true.
Proof.
  destruct (decide (code < 0 ∨ 7 < code)) as [Hout|Hin].
  - by rewrite severity_levels_get_unknown.
  - assert (code = 0 ∨ code = 1 ∨ code = 2 ∨ code = 3 ∨ code = 4 ∨
            code = 5 ∨ code = 6 ∨ code = 7) as Hcases by lia.
    by destruct Hcases as [->|[->|[->|[->|[->|[->|[->| ->]]]]]]].
Qed.

(** A display line has a line terminator only if the text has one. *)
Lemma no_newline_status_line (now : datetime) (sev : Z) (text : string) :
  no_newline (status_line now sev text) = no_newline text.
Proof.
  unfold status_line, full_message_of.
  rewrite !no_newline_app, !no_newline_ljust.
  by rewrite no_newline_strftime, no_newline_description.
Qed.

Lemma count_newlines_app (s t : string) :
  Tk.count_newlines (s +:+ t) =
  (Tk.count_newlines s + Tk.count_newlines t)%nat.
Proof.
  induction s as [|c s IH]; [done|].
  rewrite string_app_cons. simpl. rewrite IH.
  by destruct (Ascii.eqb c Tk.newline).
Qed.

Lemma count_newlines_none (s : string) :
  no_newline s = true → Tk.count_newlines s = 0%nat.
Proof.
  induction s as [|c s IH]; [done|]. simpl.
  destruct (Ascii.eqb c Tk.newline); [done|]. simpl. exact IH.
Qed.

Lemma view_of_app (log1 log2 : list string) :
  view_of (log1 ++ log2) = view_of log1 +:+ view_of log2.
Proof.
  induction log1 as [|line log1 IH]; [done|].
  simpl. by rewrite IH, !string_app_assoc.
Qed.

(** The view of a log of one-line entries has as many lines as the log has
    entries. *)
Lemma count_newlines_view (log : list string) :
  Forall (λ line, no_newline line = true) log →
  Tk.count_newlines (view_of log) = length log.
Proof.
  induction 1 as [|line log Hline _ IH]; [done|].
  simpl. rewrite !count_newlines_app, IH, (count_newlines_none line Hline).
  reflexivity.
Qed.

Lemma line_start_0 (s : string) : Tk.line_start s 0 = 0%nat.
Proof. by destruct s. Qed.

(** The line after the first one starts after its terminator. *)
Lemma line_start_skip (line rest : string) (j : nat) :
  no_newline line = true →
  Tk.line_start (line +:+ nl +:+ rest) (S j) =
  S (String.length line + Tk.line_start rest j).
Proof.
  induction line as [|c line IH]; intros Hline.
  - reflexivity.
  - simpl in Hline. apply andb_true_iff in Hline as [Hc Hline].
    apply negb_true_iff in Hc.
    rewrite string_app_cons. simpl. rewrite Hc. by rewrite IH.
Qed.

Lemma line_start_view (log : list string) (rest : string) (j : nat) :
  Forall (λ line, no_newline line = true) log →
  Tk.line_start (view_of log +:+ rest) (length log + j) =
  (String.length (view_of log) + Tk.line_start rest j)%nat.
Proof.
  induction 1 as [|line log Hline _ IH]; [done|].
  simpl. rewrite !string_app_assoc, line_start_skip by done.
  rewrite IH, !string_app_length. simpl. lia.
Qed.

Lemma take_app_length (s t : string) : Tk.take (String.length s) (s +:+ t) = s.
Proof.
  induction s as [|c s IH]; [by destruct t|].
  rewrite string_app_cons. simpl. by rewrite IH.
Qed.

(** On a view of one-line entries, [delete('end-2l', 'end-1l')] removes the
    bottom entry and nothing else. *)
Lemma delete_bottom_line (log : list string) (bottom : string) :
  Forall (λ line, no_newline line = true) log →
  no_newline bottom = true →
  Tk.delete (view_of (log ++ [bottom]))
    (Tk.EndMinusLines 2) (Tk.EndMinusLines 1) = view_of log.
Proof.
  intros Hlog Hbottom.
  assert (Hcount : Tk.count_newlines (view_of (log ++ [bottom])) =
                   S (length log)).
  { rewrite count_newlines_view.
    - rewrite length_app. simpl. lia.
    - apply Forall_app. split; [done|]. by constructor. }
  unfold Tk.delete, Tk.offset. rewrite Hcount.
  replace (S (S (length log)) - 2)%nat with (length log + 0)%nat by lia.
  replace (S (S (length log)) - 1)%nat with (length log + 1)%nat by lia.
  rewrite view_of_app, !line_start_view by done.
  change (view_of [bottom]) with (bottom +:+ nl +:+ "").
  rewrite line_start_skip by done.
  rewrite !line_start_0.
  set (above := view_of log).
  set (last_line := bottom +:+ nl +:+ "").
  assert (Hlast : String.length last_line = S (String.length bottom)).
  { subst last_line. rewrite !string_app_length. simpl. lia. }
  rewrite string_app_length, Hlast.
  replace (Nat.min (String.length above + S (String.length bottom + 0))
             (String.length above + S (String.length bottom)))
    with (String.length above + S (String.length bottom))%nat by lia.
  replace (String.length above + 0 <?
           String.length above + S (String.length bottom))%nat
    with true by (symmetry; apply Nat.ltb_lt; lia).
  rewrite Nat.add_0_r, take_app_length.
  rewrite drop_all by (rewrite string_app_length, Hlast; lia).
  apply string_app_nil_r.
Qed.

Lemma statustext_in_sync (now : datetime) (sev : Z) (text : string)
    (s : state) :
  no_newline text = true → in_sync s →
  in_sync (exec (handle_statustext now (STATUSTEXT sev text)) s).
Proof.
  intros Htext [Hview Hlines]. unfold exec, in_sync.
  rewrite handle_statustext_run. cbn [snd]. cbv zeta.
  set (line := status_line now sev text).
  assert (Hline : no_newline line = true)
    by (subst line; by rewrite no_newline_status_line).
  assert (Hall : Forall (λ l, no_newline l = true)
                   (line :: all_status_messages s)) by by constructor.
  rewrite Hview.
  change (line +:+ nl +:+ view_of (all_status_messages s))
    with (view_of (line :: all_status_messages s)).
  destruct (max_messages <? S (length (all_status_messages s)))%nat;
    proj_state; [|done].
  destruct (exists_last (l := line :: all_status_messages s))
    as (kept & bottom & Hsplit); [done|].
  rewrite Hsplit in *. rewrite removelast_last.
  apply Forall_app in Hall as [Hkept Hbottom].
  apply Forall_cons in Hbottom as [Hbottom _].
  split; [by apply delete_bottom_line | done].
Qed.

(** A message that is not a STATUSTEXT leaves the log and its view alone,
    whichever handler it reaches. *)
Lemma routed_status_frame (mode_string_v10 : mavlink_message → string)
    (now : datetime) (msg : mavlink_message) (s : state) :
  (∀ sev text, msg ≠ STATUSTEXT sev text) →
  let s' := exec (routed mode_string_v10 now msg) s in
  all_status_messages s' = all_status_messages s ∧
  status_text_widget s' = status_text_widget s.
Proof.
  intros Hmsg. cbv zeta. unfold routed.
  destruct (get_type msg =? "STATUSTEXT")%string.
  - unfold exec. by rewrite handle_statustext_other.
  - destruct ((get_type msg =? "HEARTBEAT")%string
              || (get_type msg =? "SYS_STATUS")%string).
    + destruct (handle_system_status_frame mode_string_v10 msg s)
        as (Hlog & Hview & _). done.
    + done.
Qed.

Lemma detect_in_sync (mode_string_v10 : mavlink_message → string)
    (received : option mavlink_message) (now : datetime) (s : state) :
  one_line_input (received, now) = true → in_sync s →
  in_sync (exec (detect_incoming_messages mode_string_v10 received now) s).
Proof.
  intros Hinput Hsync. destruct received as [msg|]; [|done].
  rewrite detect_routed. unfold in_sync.
  destruct (then_rearm (routed mode_string_v10 now msg) s)
    as (-> & -> & _).
  destruct msg as [sev text|t a b c|v l|name id].
  - apply (statustext_in_sync now sev text s); done.
  - destruct (routed_status_frame mode_string_v10 now (HEARTBEAT t a b c) s)
      as [-> ->]; done.
  - destruct (routed_status_frame mode_string_v10 now (SYS_STATUS v l) s)
      as [-> ->]; done.
  - destruct (routed_status_frame mode_string_v10 now (OTHER name id) s)
      as [-> ->]; done.
Qed.

Lemma mainloop_in_sync (mode_string_v10 : mavlink_message → string)
    (inputs : list (option mavlink_message * datetime)) (s : state) :
  forallb one_line_input inputs = true → in_sync s →
  in_sync (mainloop mode_string_v10 inputs s).
Proof.
  revert s. induction inputs as [|[received now] inputs IH];
    intros s Hinputs Hsync; [done|].
  cbn [forallb] in Hinputs. apply andb_true_iff in Hinputs as [Hfirst Hrest].
  cbn [mainloop].
  pose proof (detect_in_sync mode_string_v10 received now s Hfirst Hsync)
    as Hstep.
  unfold exec in Hstep.
  destruct (detect_incoming_messages mode_string_v10 received now s)
    as [[[]|e] s']; cbn [snd] in Hstep; auto.
Qed.

Lemma clear_in_sync (s : state) : in_sync (exec clear_all_data s).
Proof.
  unfold exec. rewrite clear_all_data_run. split; [done | constructor].
Qed.

(** X1: in every run, from the start of the program or from a
    [clear_all_data()], in which no status text contains a line terminator,
    the log view shows exactly the entries of [all_status_messages], one per
    line in the same order; so the view has as many lines as the list has
    entries, at most [max_messages]. *)
Theorem log_view_shows_log (mode_string_v10 : mavlink_message → string)
    (inputs : list (option mavlink_message * datetime)) (before : state) :
  forallb one_line_input inputs = true →
  ∀ start, start = initial_state ∨ start = exec clear_all_data before →
  let s := mainloop mode_string_v10 inputs start in
  status_text_widget s = view_of (all_status_messages s) ∧
  Tk.count_newlines (status_text_widget s) = length (all_status_messages s) ∧
  (Tk.count_newlines (status_text_widget s) ≤ max_messages)%nat.
Proof.
  intros Hinputs start Hstart s.
  assert (Hsync0 : in_sync start).
  { destruct Hstart as [-> | ->]; [|apply clear_in_sync].
    split; [done | constructor]. }
  assert (Hlen0 : (length (all_status_messages start) ≤ max_messages)%nat).
  { destruct Hstart as [-> | ->]; [simpl; lia|].
    unfold exec. rewrite clear_all_data_run. simpl. lia. }
  destruct (mainloop_in_sync mode_string_v10 inputs start Hinputs Hsync0)
    as [Hview Hlines].
  fold s in Hview, Hlines.
  assert (Hcount : Tk.count_newlines (status_text_widget s) =
                   length (all_status_messages s))
    by (rewrite Hview; by apply count_newlines_view).
  split; [done|]. split; [done|]. rewrite Hcount.
  by apply mainloop_length.
Qed.

Lemma log_view_shows_log_witness :
  forallb one_line_input (statustext_inputs sample_statustexts) = true ∧
  status_text_widget
    (mainloop (λ _, "AUTO") (statustext_inputs sample_statustexts)
       initial_state)
  = view_of (all_status_messages
      (mainloop (λ _, "AUTO") (statustext_inputs sample_statustexts)
         initial_state)) ∧
  (Tk.count_newlines (status_text_widget
     (mainloop (λ _, "AUTO") (statustext_inputs sample_statustexts)
        (exec clear_all_data full_log_state))) ≤ max_messages)%nat.
Proof.
  assert (Hinputs :
    forallb one_line_input (statustext_inputs sample_statustexts) = true)
    by reflexivity.
  split; [exact Hinputs|]. split.
  - apply (log_view_shows_log (λ _, "AUTO")
             (statustext_inputs sample_statustexts) initial_state Hinputs
             initial_state). by left.
  - apply (log_view_shows_log (λ _, "AUTO")
             (statustext_inputs sample_statustexts) full_log_state Hinputs
             (exec clear_all_data full_log_state)). by right.
Defined.

(** ** Polls that return and polls that raise *)

Lemma heartbeat_type_tests (t a b c : Z) :
  (get_type (HEARTBEAT t a b c) =? "STATUSTEXT")%string = false ∧
  ((get_type (HEARTBEAT t a b c) =? "HEARTBEAT")%string
   || (get_type (HEARTBEAT t a b c) =? "SYS_STATUS")%string) = true.
Proof. by split. Qed.

Lemma sys_status_type_tests (v l : Z) :
  (get_type (SYS_STATUS v l) =? "STATUSTEXT")%string = false ∧
  ((get_type (SYS_STATUS v l) =? "HEARTBEAT")%string
   || (get_type (SYS_STATUS v l) =? "SYS_STATUS")%string) = true.
Proof. by split. Qed.

(** How the handler chosen for a message ends is decided by the message
    alone. *)
Lemma routed_result (mode_string_v10 : mavlink_message → string)
    (now : datetime) (msg : mavlink_message) (s : state) :
  (poll_returns (Some msg, now) = true →
   fst (routed mode_string_v10 now msg s) = Ok ()) ∧
  (poll_returns (Some msg, now) = false →
   ∃ e, fst (routed mode_string_v10 now msg s) = Raise e).
Proof.
  unfold poll_returns. cbn [fst].
  destruct msg as [sev text|t a b c|v l|name id].
  - split; [intros _|done]. unfold routed. cbn [get_type].
    change ("STATUSTEXT" =? "STATUSTEXT")%string with true. cbv iota.
    by rewrite handle_statustext_run.
  - split; [intros _|done]. unfold routed.
    destruct (heartbeat_type_tests t a b c) as [-> ->]. cbv iota.
    by rewrite handle_heartbeat_run.
  - unfold routed. destruct (sys_status_type_tests v l) as [-> ->]. cbv iota.
    rewrite handle_sys_status_run. cbn [fst].
    destruct (snd (sys_status_render v l)) as [[]|e]; split; try done.
    intros _. by exists e.
  - unfold routed. cbn [get_type].
    destruct (name =? "STATUSTEXT")%string eqn:H1.
    { split; [done|]. intros _. exists Py.AttributeError.
      by rewrite handle_statustext_other. }
    unfold handle_system_status. cbn [get_type].
    destruct (name =? "HEARTBEAT")%string eqn:H2.
    { split; [done|]. intros _. by exists Py.AttributeError. }
    destruct (name =? "SYS_STATUS")%string eqn:H3.
    { split; [done|]. intros _. by exists Py.AttributeError. }
    split; [|done]. intros _. reflexivity.
Qed.

Lemma detect_result (mode_string_v10 : mavlink_message → string)
    (received : option mavlink_message) (now : datetime) (s : state) :
  (poll_returns (received, now) = true →
   fst (detect_incoming_messages mode_string_v10 received now s) = Ok ()) ∧
  (poll_returns (received, now) = false →
   ∃ e, fst (detect_incoming_messages mode_string_v10 received now s)
        = Raise e).
Proof.
  destruct received as [msg|]; [|by split].
  rewrite detect_routed.
  destruct (then_rearm (routed mode_string_v10 now msg) s)
    as (_ & _ & _ & _ & -> & _).
  apply routed_result.
Qed.

(** What one poll does to the log, whether it returns or raises. *)
Lemma detect_log (mode_string_v10 : mavlink_message → string)
    (received : option mavlink_message) (now : datetime) (s : state) :
  (length (all_status_messages s) ≤ max_messages)%nat →
  all_status_messages
    (exec (detect_incoming_messages mode_string_v10 received now) s) =
  take max_messages
    (match input_status_line (received, now) with
     | Some line => [line]
     | None => []
     end ++ all_status_messages s).
Proof.
  intros Hlen. destruct received as [msg|].
  - rewrite detect_routed.
    destruct (then_rearm (routed mode_string_v10 now msg) s) as (-> & _).
    destruct msg as [sev text|t a b c|v l|name id]; cbn [input_status_line].
    + unfold routed. cbn [get_type].
      change ("STATUSTEXT" =? "STATUSTEXT")%string with true. cbv iota.
      by apply statustext_list_take.
    + destruct (routed_status_frame mode_string_v10 now (HEARTBEAT t a b c) s)
        as [-> _]; [done|]. by rewrite take_ge.
    + destruct (routed_status_frame mode_string_v10 now (SYS_STATUS v l) s)
        as [-> _]; [done|]. by rewrite take_ge.
    + destruct (routed_status_frame mode_string_v10 now (OTHER name id) s)
        as [-> _]; [done|]. by rewrite take_ge.
  - cbn [input_status_line]. simpl. by rewrite take_ge.
Qed.

Lemma mainloop_log (mode_string_v10 : mavlink_message → string)
    (inputs : list (option mavlink_message * datetime)) (s : state) :
  forallb poll_returns inputs = true →
  (length (all_status_messages s) ≤ max_messages)%nat →
  all_status_messages (mainloop mode_string_v10 inputs s) =
  take max_messages
    (reverse (omap input_status_line inputs) ++ all_status_messages s).
Proof.
  revert s. induction inputs as [|[received now] inputs IH];
    intros s Hinputs Hlen.
  - simpl. by rewrite take_ge.
  - cbn [forallb] in Hinputs.
    apply andb_true_iff in Hinputs as [Hfirst Hrest].
    cbn [mainloop].
    pose proof (detect_log mode_string_v10 received now s Hlen) as Hlog.
    pose proof (detect_length mode_string_v10 received now s Hlen) as Hlen'.
    destruct (detect_result mode_string_v10 received now s) as [Hok _].
    specialize (Hok Hfirst). unfold exec in Hlog, Hlen'.
    destruct (detect_incoming_messages mode_string_v10 received now s)
      as [r s']. cbn [fst snd] in *. subst r.
    rewrite IH by done. rewrite Hlog, take_app_take.
    cbn [omap list_omap].
    destruct (input_status_line (received, now)) as [line|]; [|done].
    by rewrite reverse_cons, <- app_assoc.
Qed.

(** X2: whatever else the polls deliver in between (nothing, HEARTBEAT,
    SYS_STATUS, other message types), as long as every poll returns, the log
    holds the display lines of the most recent [max_messages] status texts
    among the polls, newest first: the other messages neither add to the log
    nor push anything out of it. *)
Theorem log_ignores_other_traffic
    (mode_string_v10 : mavlink_message → string)
    (inputs : list (option mavlink_message * datetime)) :
  forallb poll_returns inputs = true →
  all_status_messages (mainloop mode_string_v10 inputs initial_state) =
  take max_messages (reverse (omap input_status_line inputs)).
Proof.
  intros Hinputs. rewrite mainloop_log by (done || simpl; lia).
  by rewrite app_nil_r.
Qed.

Lemma log_ignores_other_traffic_witness :
  all_status_messages
    (mainloop (λ _, "AUTO")
       [(Some (STATUSTEXT 4 "first"), sample_now);
        (Some sample_heartbeat, sample_now);
        (None, sample_now);
        (Some (SYS_STATUS 11800 320), sample_now);
        (Some (OTHER "ATTITUDE" 30), sample_now);
        (Some (STATUSTEXT 6 "second"), sample_now)]
       initial_state)
  = take max_messages
      [status_line sample_now 6 "second"; status_line sample_now 4 "first"].
Proof.
  apply (log_ignores_other_traffic (λ _, "AUTO")
    [(Some (STATUSTEXT 4 "first"), sample_now);
     (Some sample_heartbeat, sample_now);
     (None, sample_now);
     (Some (SYS_STATUS 11800 320), sample_now);
     (Some (OTHER "ATTITUDE" 30), sample_now);
     (Some (STATUSTEXT 6 "second"), sample_now)]).
  vm_compute. reflexivity.
Defined.

(** ** The chain of scheduled polls *)

Lemma count_after_app (calls1 calls2 : list Tk.call) :
  count_after (calls1 ++ calls2) =
  (count_after calls1 + count_after calls2)%nat.
Proof. unfold count_after. by rewrite filter_app, length_app. Qed.

Lemma count_after_inserts (w : Tk.widget) (i : Tk.index)
    (lines : list string) :
  count_after (Tk.TextInsert w i <$> lines) = 0%nat.
Proof. induction lines as [|line lines IH]; [done|exact IH]. Qed.

(** No handler schedules a poll. *)
Lemma routed_no_after (mode_string_v10 : mavlink_message → string)
    (now : datetime) (msg : mavlink_message) (s : state) :
  count_after (tk_calls (exec (routed mode_string_v10 now msg) s)) =
  count_after (tk_calls s).
Proof.
  destruct msg as [sev text|t a b c|v l|name id].
  - unfold routed, exec. cbn [get_type].
    change ("STATUSTEXT" =? "STATUSTEXT")%string with true. cbv iota.
    rewrite handle_statustext_run. cbn [snd]. cbv zeta.
    assert (Hinsert : count_after (status_insert_calls now sev text) = 0%nat)
      by reflexivity.
    assert (Hevict : count_after [status_evict_call] = 0%nat) by reflexivity.
    destruct (max_messages <? S (length (all_status_messages s)))%nat;
      proj_state; rewrite !count_after_app, Hinsert, ?Hevict; lia.
  - unfold routed, exec.
    destruct (heartbeat_type_tests t a b c) as [-> ->]. cbv iota.
    rewrite handle_heartbeat_run. cbn [snd]. proj_state.
    rewrite count_after_app.
    match goal with
    | |- (_ + count_after ?calls)%nat = _ =>
        change (count_after calls) with 0%nat
    end. lia.
  - unfold routed. destruct (sys_status_type_tests v l) as [-> ->]. cbv iota.
    rewrite handle_sys_status_state. proj_state.
    rewrite count_after_app, count_after_inserts. lia.
  - unfold routed. cbn [get_type].
    destruct (name =? "STATUSTEXT")%string.
    { unfold exec. by rewrite handle_statustext_other. }
    destruct ((name =? "HEARTBEAT")%string || (name =? "SYS_STATUS")%string).
    { unfold exec. by rewrite handle_system_status_other. }
    done.
Qed.

(** A poll that returns schedules exactly one poll; one that raises, none. *)
Lemma detect_count_after (mode_string_v10 : mavlink_message → string)
    (received : option mavlink_message) (now : datetime) (s : state) :
  count_after
    (tk_calls (exec (detect_incoming_messages mode_string_v10 received now) s))
  = (count_after (tk_calls s) +
     match fst (detect_incoming_messages mode_string_v10 received now s) with
     | Ok _ => 1
     | Raise _ => 0
     end)%nat.
Proof.
  destruct received as [msg|].
  - rewrite detect_routed.
    destruct (then_rearm (routed mode_string_v10 now msg) s)
      as (_ & _ & _ & _ & -> & ->).
    rewrite count_after_app, routed_no_after.
    by destruct (fst (routed mode_string_v10 now msg s)).
  - unfold exec, detect_incoming_messages.
    rewrite bind_run, mret_run, root_after_run. cbn [fst snd]. proj_state.
    by rewrite count_after_app.
Qed.

(** X3: each poll that returns schedules exactly one further poll and no
    handler schedules any, so a run never has more scheduled polls than
    polls made; and when every poll returns, the polls scheduled are exactly
    as many as the polls made: the chain neither breaks nor forks. *)
Theorem polls_rearm_once (mode_string_v10 : mavlink_message → string)
    (inputs : list (option mavlink_message * datetime)) (s : state) :
  let s' := mainloop mode_string_v10 inputs s in
  (count_after (tk_calls s') ≤ count_after (tk_calls s) + length inputs)%nat ∧
  (forallb poll_returns inputs = true →
   count_after (tk_calls s') =
   (count_after (tk_calls s) + length inputs)%nat).
Proof.
  cbv zeta. revert s.
  induction inputs as [|[received now] inputs IH]; intros s.
  - simpl. split; [lia|]. intros _. lia.
  - cbn [mainloop length forallb].
    pose proof (detect_count_after mode_string_v10 received now s) as Hstep.
    destruct (detect_result mode_string_v10 received now s) as [Hok _].
    unfold exec in Hstep.
    destruct (detect_incoming_messages mode_string_v10 received now s)
      as [[[]|e] s']; cbn [fst snd] in *.
    + destruct (IH s') as [Hle Heq]. split; [lia|].
      intros Hall. apply andb_true_iff in Hall as [_ Hrest].
      rewrite (Heq Hrest). lia.
    + split; [lia|]. intros Hall.
      apply andb_true_iff in Hall as [Hfirst _].
      by specialize (Hok Hfirst).
Qed.

Lemma polls_rearm_once_witness :
  count_after (tk_calls
    (mainloop (λ _, "AUTO")
       [(Some (STATUSTEXT 4 "first"), sample_now);
        (Some sample_heartbeat, sample_now);
        (None, sample_now);
        (Some (SYS_STATUS 11800 320), sample_now)]
       initial_state)) = 4%nat.
Proof.
  apply (polls_rearm_once (λ _, "AUTO")
    [(Some (STATUSTEXT 4 "first"), sample_now);
     (Some sample_heartbeat, sample_now);
     (None, sample_now);
     (Some (SYS_STATUS 11800 320), sample_now)] initial_state).
  vm_compute. reflexivity.
Defined.

(** ** A poll that raises is the last one *)

Lemma mainloop_stops (mode_string_v10 : mavlink_message → string)
    (before after : list (option mavlink_message * datetime))
    (input : option mavlink_message * datetime) (s : state) :
  poll_returns input = false →
  mainloop mode_string_v10 (before ++ input :: after) s =
  mainloop mode_string_v10 (before ++ [input]) s.
Proof.
  intros Hraises. revert s.
  induction before as [|[received now] before IH]; intros s.
  - destruct input as [received now]. cbn [app mainloop].
    destruct (detect_result mode_string_v10 received now s) as [_ Hno].
    destruct (Hno Hraises) as [e He].
    destruct (detect_incoming_messages mode_string_v10 received now s)
      as [r s']. cbn [fst] in He. by subst r.
  - cbn [app mainloop].
    destruct (detect_incoming_messages mode_string_v10 received now s)
      as [[[]|e] s']; [apply IH | done].
Qed.

(** A SYS_STATUS that carries a sentinel never formats. *)
Lemma sentinel_render (voltage_battery raw_load : Z) :
  voltage_battery = -1 ∨ raw_load = -1 →
  (∃ e, snd (sys_status_render voltage_battery raw_load) = Raise e) ∧
  (voltage_battery = -1 →
   fst (sys_status_render voltage_battery raw_load) = []).
Proof.
  intros Hsentinel. unfold sys_status_render.
  destruct (decide (voltage_battery = -1)) as [-> | Hv].
  - change (battery_voltage_of (-1)) with (@inr Py.exn _ (Py.VStr "N/A")).
    cbv iota.
    destruct (Py.int_truediv_float raw_load Py.f10) as [e|load];
      [by eauto|].
    destruct (cpu_usage_of raw_load) as [e|cpu]; by eauto.
  - destruct Hsentinel as [? | ->]; [done|]. split; [|done].
    destruct (battery_voltage_of voltage_battery) as [e|bv]; [by eauto|].
    destruct (Py.int_truediv_float (-1) Py.f10) as [e|load]; [by eauto|].
    change (cpu_usage_of (-1)) with (@inr Py.exn _ (Py.VStr "N/A")).
    cbv iota.
    destruct (Py.format_f 2 bv) as [e|s1]; [by eauto|].
    cbn [Py.format_f snd]. eauto.
Qed.

(** X4: a SYS_STATUS whose [voltage_battery] or [load] is -1 ends the
    polling for good: the callback raises before it re-arms itself, so the
    run ends in the state of that poll whatever is delivered afterwards;
    with [voltage_battery = -1] that poll has changed nothing at all, so the
    run ends in the state the polls before it left. *)
Theorem sentinel_ends_polling (mode_string_v10 : mavlink_message → string)
    (before after : list (option mavlink_message * datetime))
    (voltage_battery raw_load : Z) (now : datetime) (s : state) :
  voltage_battery = -1 ∨ raw_load = -1 →
  let poll := (Some (SYS_STATUS voltage_battery raw_load), now) in
  mainloop mode_string_v10 (before ++ poll :: after) s =
  mainloop mode_string_v10 (before ++ [poll]) s ∧
  (voltage_battery = -1 →
   mainloop mode_string_v10 (before ++ poll :: after) s =
   mainloop mode_string_v10 before s).
Proof.
  intros Hsentinel poll.
  destruct (sentinel_render voltage_battery raw_load Hsentinel)
    as [[e He] Hnone].
  assert (Hraises : poll_returns poll = false).
  { unfold poll_returns, poll. cbn [fst]. by rewrite He. }
  split; [by apply mainloop_stops|].
  intros Hv. rewrite mainloop_stops by done. specialize (Hnone Hv).
  clear Hsentinel Hraises. revert s.
  induction before as [|[received now'] before IH]; intros s.
  - subst poll. cbn [app mainloop]. rewrite detect_routed, bind_run.
    unfold routed.
    destruct (sys_status_type_tests voltage_battery raw_load) as [-> ->].
    cbv iota. rewrite handle_sys_status_run, He, Hnone.
    cbn [foldl fmap list_fmap]. rewrite app_nil_r. by destruct s.
  - cbn [app mainloop].
    destruct (detect_incoming_messages mode_string_v10 received now' s)
      as [[[]|e'] s']; [apply IH | done].
Qed.

Lemma sentinel_ends_polling_witness :
  mainloop (λ _, "AUTO")
    ([(Some sample_heartbeat, sample_now)] ++
     (Some (SYS_STATUS (-1) 320), sample_now) ::
     [(Some (STATUSTEXT 0 "Crash"), sample_now)]) initial_state
  = mainloop (λ _, "AUTO") [(Some sample_heartbeat, sample_now)]
      initial_state.
Proof.
  apply (sentinel_ends_polling (λ _, "AUTO")
           [(Some sample_heartbeat, sample_now)]
           [(Some (STATUSTEXT 0 "Crash"), sample_now)] (-1) 320 sample_now
           initial_state); [left|]; reflexivity.
Defined.

(** ** What a SYS_STATUS shows *)

Lemma render_returns (voltage_battery raw_load : Z) (volts pct : Py.float) :
  voltage_battery ≠ -1 → raw_load ≠ -1 →
  Py.int_truediv_float voltage_battery Py.f1000 = inr volts →
  Py.int_truediv_float raw_load Py.f10 = inr pct →
  sys_status_render voltage_battery raw_load =
  ([battery_line (Py.format_float_f 2 volts);
    load_line (Py.format_float_f 1 pct);
    cpu_line (Py.format_float_f 1 pct)], Ok ()).
Proof.
  intros Hv Hl Hvolts Hpct.
  unfold sys_status_render, battery_voltage_of, cpu_usage_of.
  rewrite (proj2 (Z.eqb_neq _ _) Hv), (proj2 (Z.eqb_neq _ _) Hl).
  by rewrite Hvolts, Hpct.
Qed.

(** X5: for field values that fit a MAVLink integer, [handle_system_status]
    returns on a SYS_STATUS exactly when neither [voltage_battery] nor
    [load] is -1; the sentinels are the only values that make it raise. *)
Theorem sys_status_returns_iff (mode_string_v10 : mavlink_message → string)
    (voltage_battery raw_load : Z) (s : state) :
  wire_int voltage_battery → wire_int raw_load →
  returns (handle_system_status mode_string_v10
             (SYS_STATUS voltage_battery raw_load)) s ↔
  voltage_battery ≠ -1 ∧ raw_load ≠ -1.
Proof.
  intros Hv Hl. unfold returns. rewrite handle_sys_status_run. cbn [fst].
  split.
  - intros [[] Hok].
    destruct (decide (voltage_battery = -1 ∨ raw_load = -1)) as [Hs|Hn];
      [|lia].
    destruct (sentinel_render voltage_battery raw_load Hs) as [[e He] _].
    congruence.
  - intros [Hv1 Hl1].
    destruct (int_truediv_float_returns voltage_battery Py.f1000 Hv)
      as [volts Hvolts].
    destruct (int_truediv_float_returns raw_load Py.f10 Hl) as [pct Hpct].
    rewrite (render_returns _ _ volts pct) by done. by exists ().
Qed.

Lemma sys_status_returns_iff_witness :
  returns (handle_system_status (λ _, "AUTO") (SYS_STATUS 11800 320))
    initial_state ↔ 11800 ≠ -1 ∧ 320 ≠ -1.
Proof.
  apply (sys_status_returns_iff (λ _, "AUTO") 11800 320 initial_state);
    unfold wire_int; lia.
Defined.

Lemma format_float_f_decimals (p : nat) (x : Py.float) :
  Py.format_float_f p x =
  (if Py.fneg x then "-" else "") +:+
  Py.str_int (decimals_of p x / 10 ^ Z.of_nat p) +:+
  (match p with
   | O => ""
   | _ => "." +:+ Py.zfill p (Py.str_int (decimals_of p x mod 10 ^ Z.of_nat p))
   end).
Proof.
  unfold Py.format_float_f, decimals_of.
  by destruct (Py.scale2 (Py.fman x) 1 (- Py.fexp x)).
Qed.

Lemma zfill_one_digit (d : Z) :
  0 ≤ d < 10 → Py.zfill 1 (Py.str_int d) = Py.str_int d.
Proof.
  intros Hd.
  assert (d = 0 ∨ d = 1 ∨ d = 2 ∨ d = 3 ∨ d = 4 ∨ d = 5 ∨ d = 6 ∨ d = 7 ∨
          d = 8 ∨ d = 9) as Hcases by lia.
  by destruct Hcases as [->|[->|[->|[->|[->|[->|[->|[->|[->| ->]]]]]]]]].
Qed.

(** The rounded quotient is within half a unit of the exact one. *)
Lemma round_half_even_error (n d : Z) :
  0 ≤ n → 0 < d →
  0 ≤ Py.round_half_even n d ∧ 2 * Z.abs (Py.round_half_even n d * d - n) ≤ d.
Proof.
  intros Hn Hd. unfold Py.round_half_even.
  pose proof (Z.div_mod n d ltac:(lia)) as Hdiv.
  pose proof (Z.mod_pos_bound n d Hd) as Hmod.
  pose proof (Z.div_pos n d Hn Hd) as Hq.
  destruct (Z.ltb_spec (2 * (n mod d)) d); [split; [lia|nia]|].
  destruct (Z.ltb_spec d (2 * (n mod d))); [split; [lia|nia]|].
  destruct (Z.even (n / d)); split; try lia; nia.
Qed.

(** A quotient that is closer than half a unit to an integer rounds to it. *)
Lemma round_half_even_near (n d t : Z) :
  0 ≤ n → 0 < d → 2 * Z.abs (n - t * d) < d → Py.round_half_even n d = t.
Proof.
  intros Hn Hd Hnear.
  destruct (round_half_even_error n d Hn Hd) as [_ Herr].
  nia.
Qed.

(** [round53] on a quotient below [2^51]: the exponent is negative and the
    result is within half a unit in the last place of the quotient. *)
Lemma round53_error (n d : Z) :
  0 < n → 0 < d → Z.log2 n - Z.log2 d ≤ 50 →
  ∃ m e, Py.round53 n d = (m, e) ∧ 0 ≤ m ∧
         e ≤ Z.log2 n - Z.log2 d - 51 ∧
         2 * Z.abs (m * d - n * 2 ^ (- e)) ≤ d.
Proof.
  intros Hn Hd Hk. unfold Py.round53.
  set (k := Z.log2 n - Z.log2 d) in *.
  destruct (Py.scale2 n d k) as [nk dk].
  set (e1 := if dk <=? nk then k - 52 else k - 53).
  assert (He1 : k - 53 ≤ e1 ≤ k - 52) by (subst e1; destruct (dk <=? nk); lia).
  unfold Py.scale2.
  replace (0 <=? e1) with false by (symmetry; apply Z.leb_gt; lia).
  destruct (round_half_even_error (n * 2 ^ (- e1)) d) as [Hm Herr];
    [ | done | ].
  { apply Z.mul_nonneg_nonneg; [lia|]. apply Z.pow_nonneg. lia. }
  destruct (Z.eqb_spec (Py.round_half_even (n * 2 ^ (- e1)) d) (2 ^ 53))
    as [Hcarry|Hkeep].
  - exists (2 ^ 52), (e1 + 1). split; [done|]. split; [lia|]. split; [lia|].
    rewrite Hcarry in Herr.
    replace (- e1) with (Z.succ (- (e1 + 1))) in Herr by lia.
    rewrite Z.pow_succ_r in Herr by lia.
    change (2 ^ 53) with (2 * 2 ^ 52) in Herr.
    set (X := 2 ^ (- (e1 + 1))) in *. lia.
  - eexists _, e1. split; [done|]. split; [done|]. split; [lia|done].
Qed.

(** An int below [2^52] converts to a float exactly. *)
Lemma round53_int (a : Z) :
  0 < a < 2 ^ 52 →
  Py.round53 a 1 = (a * 2 ^ (52 - Z.log2 a), Z.log2 a - 52).
Proof.
  intros Ha.
  assert (Hlog : 0 ≤ Z.log2 a < 52).
  { split; [apply Z.log2_nonneg|]. apply Z.log2_lt_pow2; lia. }
  destruct (Z.log2_spec a) as [Hlo Hhi]; [lia|].
  unfold Py.round53. change (Z.log2 1) with 0. rewrite Z.sub_0_r.
  unfold Py.scale2.
  replace (0 <=? Z.log2 a) with true by (symmetry; apply Z.leb_le; lia).
  replace (1 * 2 ^ Z.log2 a <=? a) with true
    by (symmetry; apply Z.leb_le; lia).
  replace (0 <=? Z.log2 a - 52) with false by (symmetry; apply Z.leb_gt; lia).
  replace (- (Z.log2 a - 52)) with (52 - Z.log2 a) by lia.
  unfold Py.round_half_even. rewrite Z.mod_1_r, Z.div_1_r.
  change (2 * 0 <? 1) with true. cbv iota.
  assert (Hlt : a * 2 ^ (52 - Z.log2 a) < 2 ^ 53).
  { replace 53 with (Z.succ (Z.log2 a) + (52 - Z.log2 a)) by lia.
    rewrite Z.pow_add_r by lia.
    apply Z.mul_lt_mono_pos_r; [|done]. apply Z.pow_pos_nonneg; lia. }
  replace (a * 2 ^ (52 - Z.log2 a) =? 2 ^ 53) with false
    by (symmetry; apply Z.eqb_neq; lia).
  reflexivity.
Qed.

Lemma float_of_int_exact (a : Z) :
  0 < a < 2 ^ 52 →
  Py.float_of_int a =
  inr (Py.Float false (a * 2 ^ (52 - Z.log2 a)) (Z.log2 a - 52)).
Proof.
  intros Ha. unfold Py.float_of_int.
  replace (a =? 0) with false by (symmetry; apply Z.eqb_neq; lia).
  rewrite Z.abs_eq by lia. rewrite round53_int by done.
  assert (Z.log2 a < 52) by (apply Z.log2_lt_pow2; lia).
  replace (971 <? Z.log2 a - 52) with false by (symmetry; apply Z.ltb_ge; lia).
  replace (a <? 0) with false by (symmetry; apply Z.ltb_ge; lia).
  reflexivity.
Qed.

(** The quotient of a positive int below [2^32] by a float literal [b.0]:
    a positive float with a negative exponent, within half a unit in the
    last place of the exact quotient. *)
Lemma int_truediv_float_error (a b : Z) :
  0 < a < 2 ^ 32 → 0 < b →
  ∃ m e, Py.int_truediv_float a (Py.Float false b 0) =
           inr (Py.Float false m e) ∧
         0 ≤ m ∧ e ≤ -20 ∧ 2 * Z.abs (m * b - a * 2 ^ (- e)) ≤ b.
Proof.
  intros Ha Hb.
  assert (Ha52 : 0 < a < 2 ^ 52).
  { split; [lia|]. apply Z.lt_trans with (2 ^ 32); [lia | done]. }
  assert (Hlog : 0 ≤ Z.log2 a < 32).
  { split; [apply Z.log2_nonneg|]. apply Z.log2_lt_pow2; lia. }
  unfold Py.int_truediv_float. rewrite float_of_int_exact by done.
  unfold Py.float_div. cbn [Py.fman Py.fexp Py.fneg xorb].
  set (j := 52 - Z.log2 a).
  assert (Hc : 0 < 2 ^ j) by (apply Z.pow_pos_nonneg; lia).
  replace (a * 2 ^ j =? 0) with false by (symmetry; apply Z.eqb_neq; nia).
  unfold Py.scale2.
  replace (0 - (Z.log2 a - 52)) with j by lia.
  replace (0 <=? j) with true by (symmetry; apply Z.leb_le; lia).
  destruct (round53_error (a * 2 ^ j) (b * 2 ^ j)) as (m & e & -> & Hm & He & Herr).
  - nia.
  - nia.
  - rewrite !Z.log2_mul_pow2 by lia. pose proof (Z.log2_nonneg b). lia.
  - exists m, e. split; [done|]. split; [done|].
    rewrite !Z.log2_mul_pow2 in He by lia. pose proof (Z.log2_nonneg b).
    split; [lia|].
    replace (m * (b * 2 ^ j) - a * 2 ^ j * 2 ^ (- e))
      with ((m * b - a * 2 ^ (- e)) * 2 ^ j) in Herr by ring.
    rewrite Z.abs_mul, (Z.abs_eq (2 ^ j)) in Herr by lia.
    nia.
Qed.

Lemma decimals_of_negative_exponent (p : nat) (neg : bool) (m e : Z) :
  e ≤ 0 →
  decimals_of p (Py.Float neg m e) =
  Py.round_half_even (m * 10 ^ Z.of_nat p) (2 ^ (- e)).
Proof.
  intros He. unfold decimals_of, Py.scale2. cbn [Py.fman Py.fexp].
  replace (0 <=? - e) with true by (symmetry; apply Z.leb_le; lia).
  by rewrite Z.mul_1_l.
Qed.

(** A load below [2^32] divided by [10.0] prints with exactly its tenths. *)
Lemma load_tenths (raw_load : Z) :
  0 ≤ raw_load < 2 ^ 32 →
  ∃ x, Py.int_truediv_float raw_load Py.f10 = inr x ∧
       Py.fneg x = false ∧ decimals_of 1 x = raw_load.
Proof.
  intros Hl. destruct (decide (raw_load = 0)) as [-> | Hpos].
  { eexists. split; [reflexivity|]. by split. }
  destruct (int_truediv_float_error raw_load 10) as (m & e & Hx & Hm & He & Herr);
    [lia | lia |].
  exists (Py.Float false m e). split; [exact Hx|]. split; [done|].
  rewrite decimals_of_negative_exponent by lia.
  assert (HE : 2 ^ 20 ≤ 2 ^ (- e)) by (apply Z.pow_le_mono_r; lia).
  apply round_half_even_near.
  - change (10 ^ Z.of_nat 1) with 10. lia.
  - lia.
  - change (10 ^ Z.of_nat 1) with 10.
    change (2 ^ 20) with 1048576 in HE. lia.
Qed.

(** A voltage below [2^32] divided by [1000.0] prints as the hundredths
    nearest to it. *)
Lemma voltage_hundredths (voltage_battery : Z) :
  0 ≤ voltage_battery < 2 ^ 32 →
  ∃ x, Py.int_truediv_float voltage_battery Py.f1000 = inr x ∧
       Py.fneg x = false ∧ 0 ≤ decimals_of 2 x ∧
       Z.abs (10 * decimals_of 2 x - voltage_battery) ≤ 5.
Proof.
  intros Hv. destruct (decide (voltage_battery = 0)) as [-> | Hpos].
  { eexists. split; [reflexivity|]. split; [done|]. by vm_compute. }
  destruct (int_truediv_float_error voltage_battery 1000)
    as (m & e & Hx & Hm & He & Herr); [lia | lia |].
  exists (Py.Float false m e). split; [exact Hx|]. split; [done|].
  rewrite decimals_of_negative_exponent by lia.
  assert (HE : 2 ^ 20 ≤ 2 ^ (- e)) by (apply Z.pow_le_mono_r; lia).
  change (2 ^ 20) with 1048576 in HE. change (10 ^ Z.of_nat 2) with 100.
  destruct (round_half_even_error (m * 100) (2 ^ (- e))) as [Hk Hkerr];
    [lia | lia |].
  split; [done|].
  set (k := Py.round_half_even (m * 100) (2 ^ (- e))) in *.
  set (E := 2 ^ (- e)) in *.
  nia.
Qed.

(** X6: for a SYS_STATUS whose [voltage_battery] and [load] are between 0
    and [2^32 - 1], [handle_system_status] returns and appends exactly three
    lines: the voltage in volts with two decimals, equal to the millivolts
    rounded to the nearest hundredth of a volt (so exact when the
    millivolts are a multiple of 10), and the load divided by 10 with its
    exact tenth as the one decimal, on both the load and the CPU line.  The
    float division adds no error to what is displayed. *)
Theorem sys_status_shows_scaled (mode_string_v10 : mavlink_message → string)
    (voltage_battery raw_load : Z) (s : state) :
  0 ≤ voltage_battery < 2 ^ 32 → 0 ≤ raw_load < 2 ^ 32 →
  ∃ k, 0 ≤ k ∧ Z.abs (10 * k - voltage_battery) ≤ 5 ∧
    handle_system_status mode_string_v10
      (SYS_STATUS voltage_battery raw_load) s =
    (Ok (),
     State (all_status_messages s) (status_text_widget s)
       (system_info_text_widget s +:+
        foldr String.append "" (sys_status_lines k raw_load))
       (stdout s)
       (tk_calls s ++
        (Tk.TextInsert Tk.system_info_text Tk.END <$>
         sys_status_lines k raw_load))).
Proof.
  intros Hv Hl.
  destruct (voltage_hundredths voltage_battery Hv)
    as (volts & Hvolts & Hvpos & Hk & Hnear).
  destruct (load_tenths raw_load Hl) as (pct & Hpct & Hppos & Htenths).
  exists (decimals_of 2 volts). split; [done|]. split; [done|].
  rewrite handle_sys_status_run.
  rewrite (render_returns _ _ volts pct) by (done || lia).
  cbn [fst snd]. rewrite foldl_append.
  rewrite !format_float_f_decimals, Hvpos, Hppos, Htenths.
  change (10 ^ Z.of_nat 2) with 100. change (10 ^ Z.of_nat 1) with 10.
  rewrite zfill_one_digit by (apply Z.mod_pos_bound; lia).
  reflexivity.
Qed.

Lemma sys_status_shows_scaled_witness :
  ∃ k, 0 ≤ k ∧ Z.abs (10 * k - 12605) ≤ 5 ∧
    handle_system_status (λ _, "AUTO") (SYS_STATUS 12605 999) initial_state =
    (Ok (),
     State [] ""
       ("" +:+ foldr String.append "" (sys_status_lines k 999)) []
       ([] ++ (Tk.TextInsert Tk.system_info_text Tk.END <$>
               sys_status_lines k 999))).
Proof.
  apply (sys_status_shows_scaled (λ _, "AUTO") 12605 999 initial_state);
    lia.
Defined.

(** ** The colour tags *)

Lemma severity_tag_inj (a b : Z) : severity_tag a = severity_tag b → a = b.
Proof.
  unfold severity_tag, Py.str_int. intros Heq.
  apply (inj (String.app "severity_")) in Heq.
  by apply (inj pretty) in Heq.
Qed.

(** The items listed are those of the dict. *)
Lemma severity_levels_items_map :
  list_to_map severity_levels_items = severity_levels.
Proof. reflexivity. Qed.

(** X7: the tag that [handle_statustext] puts on a new line is configured
    by the start-up loop exactly when the severity is one of 0 to 7, and
    then with the colour of [severity_levels] in bold Helvetica 16.  For any
    other severity the line carries a tag that was never configured: the
    fallback colour ['black'] that the handler looks up is not applied, and
    the line shows in the default style of the widget. *)
Theorem severity_tag_configured
    (now : datetime) (sev : Z) (text : string) (s : state) :
  Tk.TextTagAdd Tk.status_text (severity_tag sev) Tk.Line1Char0 Tk.Line1End
    ∈ tk_calls (exec (handle_statustext now (STATUSTEXT sev text)) s) ∧
  configure_severity_tags !! severity_tag sev =
  if decide (0 ≤ sev ≤ 7)
  then Some (TagOptions (snd (severity_levels_get sev))
               ("Helvetica", 16, "bold"))
  else None.
Proof.
  split.
  - unfold exec. rewrite handle_statustext_run. cbn [snd]. cbv zeta.
    unfold status_insert_calls. fold (severity_tag sev).
    destruct (max_messages <? S (length (all_status_messages s)))%nat;
      proj_state; set_solver.
  - destruct (decide (0 ≤ sev ≤ 7)) as [Hin|Hout].
    + assert (sev = 0 ∨ sev = 1 ∨ sev = 2 ∨ sev = 3 ∨ sev = 4 ∨
              sev = 5 ∨ sev = 6 ∨ sev = 7) as Hcases by lia.
      by destruct Hcases as [->|[->|[->|[->|[->|[->|[->| ->]]]]]]];
        vm_compute.
    + unfold configure_severity_tags, severity_levels_items. cbn [foldl].
      rewrite !lookup_insert_ne
        by (intros Heq; apply severity_tag_inj in Heq; lia).
      apply lookup_empty.
Qed.

(** ** Waiting for the first HEARTBEAT *)

Lemma print_run (line : string) (s : state) :
  print line s =
  (Ok (), State (all_status_messages s) (status_text_widget s)
             (system_info_text_widget s) (stdout s ++ [line]) (tk_calls s)).
Proof. reflexivity. Qed.

Lemma wait_for_heartbeat_loop_run (received : list (option mavlink_message))
    (s : state) :
  wait_for_heartbeat_loop received s =
  (Ok (existsb delivered received),
   State (all_status_messages s) (status_text_widget s)
     (system_info_text_widget s)
     (stdout s ++
      if existsb delivered received then ["HEARTBEAT received!"] else [])
     (tk_calls s ++
      if existsb delivered received then [rearm_call] else [])).
Proof.
  induction received as [|[msg|] received IH].
  - simpl. rewrite !app_nil_r. by destruct s.
  - cbn [wait_for_heartbeat_loop existsb delivered orb].
    rewrite bind_run, print_run, bind_run, root_after_run. by proj_state.
  - cbn [wait_for_heartbeat_loop existsb delivered orb]. exact IH.
Qed.

(** X8: [wait_for_heartbeat()] touches neither the log nor a widget: the
    HEARTBEAT that ends the wait is not displayed.  It prints its first
    line at once; when one of the calls to [recv_match] returns a message
    it prints the second line, schedules exactly one poll and leaves the
    loop, and as long as none does it schedules nothing. *)
Theorem wait_for_heartbeat_gate (received : list (option mavlink_message))
    (s : state) :
  wait_for_heartbeat received s =
  (Ok (existsb delivered received),
   State (all_status_messages s) (status_text_widget s)
     (system_info_text_widget s)
     (stdout s ++ "Waiting for HEARTBEAT..." ::
      if existsb delivered received then ["HEARTBEAT received!"] else [])
     (tk_calls s ++
      if existsb delivered received then [rearm_call] else [])).
Proof.
  unfold wait_for_heartbeat.
  rewrite bind_run, print_run, wait_for_heartbeat_loop_run. proj_state.
  by rewrite <- app_assoc.
Qed.

(** ** The armed flag *)

Lemma land_128_testbit (base_mode : Z) :
  (Z.land base_mode MAV_MODE_FLAG_SAFETY_ARMED =? 0) =
  negb (Z.testbit base_mode 7).
Proof.
  unfold MAV_MODE_FLAG_SAFETY_ARMED. change 128 with (2 ^ 7).
  destruct (Z.testbit base_mode 7) eqn:Hbit; cbn [negb].
  - apply Z.eqb_neq. intros Hzero.
    assert (Z.testbit (Z.land base_mode (2 ^ 7)) 7 = true) as Hland
      by (rewrite Z.land_spec, Hbit, Z.pow2_bits_eqb by lia; done).
    rewrite Hzero, Z.testbit_0_l in Hland. done.
  - apply Z.eqb_eq. apply Z.bits_inj'. intros n Hn.
    rewrite Z.land_spec, Z.pow2_bits_eqb, Z.testbit_0_l by lia.
    destruct (Z.eqb_spec 7 n) as [<-|_]; [by rewrite Hbit|].
    apply andb_false_r.
Qed.

(** X9: the armed status a HEARTBEAT shows depends on bit 7 of [base_mode]
    alone (the safety-armed flag): ARMED when the bit is set, DISARMED when
    it is clear, whatever the other mode flags are. *)
Theorem armed_status_is_bit_7 (mode_string_v10 : mavlink_message → string)
    (type autopilot base_mode custom_mode : Z) (s : state) :
  let msg := HEARTBEAT type autopilot base_mode custom_mode in
  system_info_text_widget
    (exec (handle_system_status mode_string_v10 msg) s) =
  ("Armed Status: " +:+
   (if Z.testbit base_mode 7 then "ARMED" else "DISARMED") +:+ nl) +:+
  mode_line (mode_string_v10 msg) custom_mode.
Proof.
  cbv zeta. unfold exec. rewrite handle_heartbeat_run. cbn [snd]. proj_state.
  unfold armed_line. rewrite land_128_testbit.
  by destruct (Z.testbit base_mode 7).
Qed.

(** ** SYS_STATUS lines pile up *)

Lemma foldr_append_app (lines1 lines2 : list string) :
  foldr String.append "" (lines1 ++ lines2) =
  foldr String.append "" lines1 +:+ foldr String.append "" lines2.
Proof.
  induction lines1 as [|line lines1 IH]; [done|].
  simpl. by rewrite IH, string_app_assoc.
Qed.

(** What one poll that is not a HEARTBEAT does to the panel, whether it
    returns or raises. *)
Lemma detect_panel (mode_string_v10 : mavlink_message → string)
    (received : option mavlink_message) (now : datetime) (s : state) :
  no_heartbeat (received, now) = true →
  system_info_text_widget
    (exec (detect_incoming_messages mode_string_v10 received now) s) =
  system_info_text_widget s +:+
  foldr String.append "" (input_panel_lines (received, now)).
Proof.
  intros Hquiet. unfold input_panel_lines. cbn [fst].
  destruct received as [msg|];
    [|simpl; by rewrite string_app_nil_r].
  rewrite detect_routed.
  destruct (then_rearm (routed mode_string_v10 now msg) s)
    as (_ & _ & -> & _).
  destruct msg as [sev text|t a b c|v l|name id]; [|done| |].
  - rewrite routed_no_system_status by done.
    simpl. by rewrite string_app_nil_r.
  - unfold routed. destruct (sys_status_type_tests v l) as [-> ->]. cbv iota.
    by rewrite handle_sys_status_state.
  - rewrite routed_no_system_status by done.
    simpl. by rewrite string_app_nil_r.
Qed.

(** X10: between two HEARTBEATs the panel only grows: over any polls that
    all return and deliver no HEARTBEAT, the panel ends as what it showed
    before followed by the lines of every SYS_STATUS delivered, in order;
    no poll removes or rewrites an earlier line, and messages of other
    types add nothing. *)
Theorem panel_accumulates (mode_string_v10 : mavlink_message → string)
    (inputs : list (option mavlink_message * datetime)) (s : state) :
  forallb poll_returns inputs = true →
  forallb no_heartbeat inputs = true →
  system_info_text_widget (mainloop mode_string_v10 inputs s) =
  system_info_text_widget s +:+
  foldr String.append "" (concat (input_panel_lines <$> inputs)).
Proof.
  revert s. induction inputs as [|[received now] inputs IH];
    intros s Hreturn Hquiet.
  - simpl. by rewrite string_app_nil_r.
  - cbn [forallb] in Hreturn, Hquiet.
    apply andb_true_iff in Hreturn as [Hfirst Hrest].
    apply andb_true_iff in Hquiet as [Hq Hqs].
    rewrite fmap_cons. cbn [concat mainloop].
    pose proof (detect_panel mode_string_v10 received now s Hq) as Hstep.
    destruct (detect_result mode_string_v10 received now s) as [Hok _].
    specialize (Hok Hfirst). unfold exec in Hstep.
    destruct (detect_incoming_messages mode_string_v10 received now s)
      as [r s']. cbn [fst snd] in *. subst r.
    rewrite IH by done.
    by rewrite Hstep, foldr_append_app, string_app_assoc.
Qed.

Lemma panel_accumulates_witness :
  system_info_text_widget
    (mainloop (λ _, "AUTO")
       [(Some (SYS_STATUS 11800 320), sample_now);
        (Some (STATUSTEXT 4 "first"), sample_now);
        (Some (SYS_STATUS 11790 330), sample_now)]
       (exec (handle_system_status (λ _, "AUTO") sample_heartbeat)
          initial_state))
  = system_info_text_widget
      (exec (handle_system_status (λ _, "AUTO") sample_heartbeat)
         initial_state) +:+
    foldr String.append ""
      (concat (input_panel_lines <$>
         [(Some (SYS_STATUS 11800 320), sample_now);
          (Some (STATUSTEXT 4 "first"), sample_now);
          (Some (SYS_STATUS 11790 330), sample_now)])).
Proof.
  apply (panel_accumulates (λ _, "AUTO")
    [(Some (SYS_STATUS 11800 320), sample_now);
     (Some (STATUSTEXT 4 "first"), sample_now);
     (Some (SYS_STATUS 11790 330), sample_now)]);
    vm_compute; reflexivity.
Defined.

(** ** The diagnostic line *)

(** X11: the line [log_unknown_message] prints identifies the message id:
    two messages whose lines are equal have the same id. *)
Theorem unknown_line_identifies_id (msg1 msg2 : mavlink_message)
    (s1 s2 : state) :
  last (stdout (exec (log_unknown_message msg1) s1)) =
  last (stdout (exec (log_unknown_message msg2) s2)) →
  get_msgId msg1 = get_msgId msg2.
Proof.
  unfold exec. rewrite !log_unknown_message_run. cbn [snd]. proj_state.
  rewrite !last_snoc. intros Heq. apply (inj Some) in Heq.
  apply (inj (String.app "Unknown message type received: ID ")) in Heq.
  unfold Py.str_int in Heq. by apply (inj pretty) in Heq.
Qed.

Lemma unknown_line_identifies_id_witness :
  get_msgId (OTHER "ATTITUDE" 30) = get_msgId (OTHER "ATTITUDE_TARGET" 30).
Proof.
  apply (unknown_line_identifies_id (OTHER "ATTITUDE" 30)
           (OTHER "ATTITUDE_TARGET" 30) initial_state initial_state).
  reflexivity.
Defined.

(** ** Clearing resets the display *)

Lemma routed_same_display (mode_string_v10 : mavlink_message → string)
    (now : datetime) (msg : mavlink_message) (s1 s2 : state) :
  same_display s1 s2 →
  fst (routed mode_string_v10 now msg s1) =
  fst (routed mode_string_v10 now msg s2) ∧
  same_display (exec (routed mode_string_v10 now msg) s1)
    (exec (routed mode_string_v10 now msg) s2).
Proof.
  intros (Hlog & Hview & Hpanel). unfold same_display, exec.
  destruct msg as [sev text|t a b c|v l|name id].
  - unfold routed. cbn [get_type].
    change ("STATUSTEXT" =? "STATUSTEXT")%string with true. cbv iota.
    rewrite !handle_statustext_run. cbn [fst snd]. cbv zeta.
    rewrite Hlog, Hview, Hpanel.
    by destruct (max_messages <? S (length (all_status_messages s2)))%nat.
  - unfold routed. destruct (heartbeat_type_tests t a b c) as [-> ->].
    cbv iota. rewrite !handle_heartbeat_run. cbn [fst snd]. proj_state.
    by rewrite Hlog, Hview.
  - unfold routed. destruct (sys_status_type_tests v l) as [-> ->].
    cbv iota. rewrite !handle_sys_status_run. cbn [fst snd]. proj_state.
    by rewrite Hlog, Hview, Hpanel.
  - unfold routed. cbn [get_type].
    destruct (name =? "STATUSTEXT")%string.
    { by rewrite !handle_statustext_other. }
    unfold handle_system_status. cbn [get_type].
    destruct (name =? "HEARTBEAT")%string; [done|].
    destruct (name =? "SYS_STATUS")%string; [done|].
    cbn [orb]. by rewrite !log_unknown_message_run.
Qed.

Lemma mainloop_same_display (mode_string_v10 : mavlink_message → string)
    (inputs : list (option mavlink_message * datetime)) (s1 s2 : state) :
  same_display s1 s2 →
  same_display (mainloop mode_string_v10 inputs s1)
    (mainloop mode_string_v10 inputs s2).
Proof.
  revert s1 s2. induction inputs as [|[received now] inputs IH];
    intros s1 s2 Hsame; [done|].
  cbn [mainloop].
  assert (Hstep :
    fst (detect_incoming_messages mode_string_v10 received now s1) =
    fst (detect_incoming_messages mode_string_v10 received now s2) ∧
    same_display
      (exec (detect_incoming_messages mode_string_v10 received now) s1)
      (exec (detect_incoming_messages mode_string_v10 received now) s2)).
  { destruct received as [msg|].
    - rewrite detect_routed.
      destruct (routed_same_display mode_string_v10 now msg s1 s2 Hsame)
        as (Hres & Hl & Hv & Hp).
      destruct (then_rearm (routed mode_string_v10 now msg) s1)
        as (Hl1 & Hv1 & Hp1 & _ & Hr1 & _).
      destruct (then_rearm (routed mode_string_v10 now msg) s2)
        as (Hl2 & Hv2 & Hp2 & _ & Hr2 & _).
      unfold same_display. rewrite Hr1, Hr2, Hl1, Hl2, Hv1, Hv2, Hp1, Hp2.
      done.
    - done. }
  destruct Hstep as [Hres Hnext]. unfold exec in Hnext.
  destruct (detect_incoming_messages mode_string_v10 received now s1)
    as [r1 s1'].
  destruct (detect_incoming_messages mode_string_v10 received now s2)
    as [r2 s2']. cbn [fst snd] in *. subst r2.
  destruct r1 as [[]|e]; [by apply IH | done].
Qed.

(** X12: [clear_all_data()] resets what is displayed to the start-up
    display: whatever was received before the clear, the log and the two
    widgets after any later polls are those the same polls produce from a
    freshly started program. *)
Theorem clear_restarts_display (mode_string_v10 : mavlink_message → string)
    (inputs : list (option mavlink_message * datetime)) (before : state) :
  same_display
    (mainloop mode_string_v10 inputs (exec clear_all_data before))
    (mainloop mode_string_v10 inputs initial_state).
Proof.
  apply mainloop_same_display. unfold exec.
  by rewrite clear_all_data_run.
Qed.

(** ** A status text with a line terminator *)

Lemma count_newlines_ljust (w : nat) (s : string) :
  Tk.count_newlines (Py.ljust w s) = Tk.count_newlines s.
Proof.
  unfold Py.ljust.
  rewrite count_newlines_app,
    (count_newlines_none _ (no_newline_repeat_space _)).
  lia.
Qed.

Lemma count_newlines_status_line (now : datetime) (sev : Z) (text : string) :
  Tk.count_newlines (status_line now sev text) = Tk.count_newlines text.
Proof.
  unfold status_line, full_message_of.
  rewrite !count_newlines_app, !count_newlines_ljust.
  rewrite (count_newlines_none _ (no_newline_strftime now)).
  rewrite (count_newlines_none _ (no_newline_description sev)).
  reflexivity.
Qed.

(** X13: below capacity, a status text adds one entry to the log and one
    line to the log view for each line of its text: a text with [n] line
    terminators adds [n + 1] lines to the view, so from then on the view
    has more lines than the log has entries. *)
Theorem statustext_view_lines
    (now : datetime) (sev : Z) (text : string) (s : state) :
  (length (all_status_messages s) < max_messages)%nat →
  let s' := exec (handle_statustext now (STATUSTEXT sev text)) s in
  length (all_status_messages s') = S (length (all_status_messages s)) ∧
  Tk.count_newlines (status_text_widget s') =
  (Tk.count_newlines (status_text_widget s) + 1 +
   Tk.count_newlines text)%nat.
Proof.
  intros Hroom. cbv zeta. unfold exec. rewrite handle_statustext_run.
  cbn [snd]. cbv zeta.
  destruct (Nat.ltb_spec max_messages (S (length (all_status_messages s))));
    [lia|]. proj_state. split; [done|].
  rewrite !count_newlines_app, count_newlines_status_line.
  change (Tk.count_newlines nl) with 1%nat. lia.
Qed.

Lemma statustext_view_lines_witness :
  length (all_status_messages
    (exec (handle_statustext sample_now
             (STATUSTEXT 4 (String "a" (String Tk.newline "b"))))
       initial_state)) = 1%nat ∧
  Tk.count_newlines (status_text_widget
    (exec (handle_statustext sample_now
             (STATUSTEXT 4 (String "a" (String Tk.newline "b"))))
       initial_state)) = 2%nat.
Proof.
  apply (statustext_view_lines sample_now 4
           (String "a" (String Tk.newline "b")) initial_state).
  simpl. unfold max_messages. lia.
Defined.
